(** * Numato relay board driver ([numato_relay_board.py])

    A shallow embedding of the [RelayBoard] class: the Python string and
    integer built-ins the methods call, the serial transport the methods
    drive, the eight methods themselves, and the properties of the
    driver's command encoding and reply decoding. *)

From Stdlib Require Import Ascii String ZArith List Bool Lia SpecFloat.
Import ListNotations.
Open Scope Z_scope.

(** ** Python text and bytes

    A Python [str] is a sequence of Unicode code points and a [bytes] a
    sequence of octets; both are lists of integers here. *)

Definition pystr := list Z.
Definition pybytes := list Z.

Definition CR : Z := 13.
Definition LF : Z := 10.

(** The code point of an ASCII character of a literal. *)
Definition chr (a : ascii) : Z := Z.of_N (N_of_ascii a).

(** A literal of the source that holds printable ASCII only. *)
Definition lit (s : string) : pystr := map chr (list_ascii_of_string s).

Definition len {A : Type} (l : list A) : Z := Z.of_nat (length l).

(** The classification of the code points above ASCII comes from the
    Unicode database of the interpreter; the driver does not define it. *)
Record unicode_db := {
  db_isspace : Z -> bool;
  db_decimal : Z -> option Z;
  db_isalnum : Z -> bool
}.

(** The database that classifies nothing above ASCII. *)
Definition ascii_db : unicode_db :=
  {| db_isspace := fun _ => false;
     db_decimal := fun _ => None;
     db_isalnum := fun _ => false |}.

(** A fragment of the database: U+00E9 (e with acute accent) is a letter
    and U+0663 (ARABIC-INDIC DIGIT THREE) is a decimal digit of value 3. *)
Definition sample_db : unicode_db :=
  {| db_isspace := fun c => c =? 160;
     db_decimal := fun c => if c =? 1635 then Some 3 else None;
     db_isalnum := fun c => (c =? 233) || (c =? 1635) |}.

Definition in_range (lo hi c : Z) : bool := (lo <=? c) && (c <=? hi).

Definition is_ascii (c : Z) : bool := in_range 0 127 c.

Definition ascii_digit (c : Z) : bool := in_range 48 57 c.
Definition ascii_upper (c : Z) : bool := in_range 65 90 c.
Definition ascii_lower (c : Z) : bool := in_range 97 122 c.

Definition ascii_alnum (c : Z) : bool :=
  ascii_digit c || ascii_upper c || ascii_lower c.

(** [x.isalnum()]. *)
Definition isalnum (db : unicode_db) (x : Z) : bool :=
  if is_ascii x then ascii_alnum x else db_isalnum db x.

(** ** String methods *)

(** [s.split(sep)] for a separator of one character. *)
Fixpoint split (sep : Z) (s : pystr) : list pystr :=
  match s with
  | [] => [[]]
  | c :: s' =>
      if c =? sep then [] :: split sep s'
      else match split sep s' with
           | [] => [[c]]
           | w :: ws => (c :: w) :: ws
           end
  end.

Definition mem (c : Z) (chars : pystr) : bool := existsb (Z.eqb c) chars.

Fixpoint lstrip (chars : pystr) (s : pystr) : pystr :=
  match s with
  | [] => []
  | c :: s' => if mem c chars then lstrip chars s' else s
  end.

Definition rstrip (chars : pystr) (s : pystr) : pystr :=
  rev (lstrip chars (rev s)).

(** [s.strip(chars)]. *)
Definition strip (chars : pystr) (s : pystr) : pystr :=
  rstrip chars (lstrip chars s).

Definition zeros (n : Z) : pystr := repeat 48 (Z.to_nat n).

(** [s.zfill(width)]: the padding goes after a leading sign. *)
Definition zfill (width : Z) (s : pystr) : pystr :=
  if width <=? len s then s
  else match s with
       | c :: s' =>
           if (c =? 43) || (c =? 45) then c :: zeros (width - len s) ++ s'
           else zeros (width - len s) ++ s
       | [] => zeros width
       end.

(** [s[:n]] and [s[n:]] for a non-negative [n]. *)
Definition slice_to (n : nat) (s : pystr) : pystr := firstn n s.
Definition slice_from (n : nat) (s : pystr) : pystr := skipn n s.

(** ** Integers as text *)

(** The character of a digit value below 36, lower case. *)
Definition digit_char (d : Z) : Z := if d <? 10 then 48 + d else 87 + d.

Fixpoint digits_fuel (fuel : nat) (base n : Z) : pystr :=
  match fuel with
  | O => [digit_char n]
  | S fuel' =>
      if n <? base then [digit_char n]
      else digits_fuel fuel' base (n / base) ++ [digit_char (n mod base)]
  end.

(** The digits of a non-negative [n], most significant first. Each
    division by a base of 2 or more takes one bit off [n] at least. *)
Definition digits (base n : Z) : pystr :=
  digits_fuel (Z.to_nat (Z.log2 n)) base n.

Definition sign_prefix (n : Z) : pystr := if n <? 0 then [45] else [].

(** [hex(n)]. *)
Definition hex (n : Z) : pystr :=
  sign_prefix n ++ lit "0x" ++ digits 16 (Z.abs n).

(** [str(n)], which is also ['%s' % n], of an integer. *)
Definition str_of_int (n : Z) : pystr :=
  sign_prefix n ++ digits 10 (Z.abs n).

(** The value of a character as a digit, 37 when it is none. *)
Definition digit_value (c : Z) : Z :=
  if ascii_digit c then c - 48
  else if ascii_lower c then c - 87
  else if ascii_upper c then c - 55
  else 37.

(** The white space [int] skips around a literal. *)
Definition int_space (c : Z) : bool := in_range 9 13 c || (c =? 32).

(** What [int] makes of a text that is not all ASCII before it reads it:
    a space for a Unicode space, the ASCII digit for a Unicode decimal
    digit, and a question mark, where the text ends, for anything else. *)
Fixpoint transform_decimal_and_space (db : unicode_db) (s : pystr) : pystr :=
  match s with
  | [] => []
  | ch :: s' =>
      if ch <? 127 then ch :: transform_decimal_and_space db s'
      else if db_isspace db ch then 32 :: transform_decimal_and_space db s'
      else match db_decimal db ch with
           | Some d => (48 + d) :: transform_decimal_and_space db s'
           | None => [63]
           end
  end.

Definition int_text (db : unicode_db) (s : pystr) : pystr :=
  if forallb is_ascii s then s else transform_decimal_and_space db s.

(** The run of digits and single underscores of a literal: no two
    underscores in a row and none at the end. *)
Fixpoint scan_digits (base acc : Z) (prev_us : bool) (s : pystr)
  : option (Z * pystr) :=
  match s with
  | [] => if prev_us then None else Some (acc, [])
  | c :: s' =>
      if c =? 95 then
        if prev_us then None else scan_digits base acc true s'
      else if digit_value c <? base then
        scan_digits base (acc * base + digit_value c) false s'
      else if prev_us then None else Some (acc, s)
  end.

Fixpoint lstrip_space (s : pystr) : pystr :=
  match s with
  | [] => []
  | c :: s' => if int_space c then lstrip_space s' else s
  end.

Definition skip_sign (s : pystr) : bool * pystr :=
  match s with
  | c :: s' =>
      if c =? 43 then (false, s')
      else if c =? 45 then (true, s')
      else (false, s)
  | [] => (false, [])
  end.

(** The [0x] of a literal in base 16, and one underscore after it. *)
Definition skip_prefix (base : Z) (s : pystr) : pystr :=
  match s with
  | c0 :: c1 :: s' =>
      if (base =? 16) && (c0 =? 48) && ((c1 =? 120) || (c1 =? 88)) then
        match s' with
        | c2 :: s'' => if c2 =? 95 then s'' else s'
        | [] => s'
        end
      else s
  | _ => s
  end.

Definition parse_int_ascii (base : Z) (s : pystr) : option Z :=
  let (neg, s1) := skip_sign (lstrip_space s) in
  let s2 := skip_prefix base s1 in
  match s2 with
  | [] => None
  | c :: _ =>
      if digit_value c <? base then
        match scan_digits base 0 false s2 with
        | Some (v, rest) =>
            if forallb int_space rest then Some (if neg then - v else v)
            else None
        | None => None
        end
      else None
  end.

(** [int(s, base)] of a text, for base 10 and base 16; [None] is its
    [ValueError]. *)
Definition int_of_str (db : unicode_db) (base : Z) (s : pystr) : option Z :=
  parse_int_ascii base (int_text db s).

(** ** UTF-8

    [str(b, 'utf-8')] and [bytes(s, 'utf-8')]; [None] is the
    [UnicodeDecodeError] of the first and the [UnicodeEncodeError] of the
    second. *)

Definition continuation (b : Z) : bool := in_range 128 191 b.

Fixpoint utf8_decode (bs : pybytes) : option pystr :=
  match bs with
  | [] => Some []
  | b0 :: r0 =>
      if in_range 0 127 b0 then option_map (cons b0) (utf8_decode r0)
      else if in_range 194 223 b0 then
        match r0 with
        | b1 :: r1 =>
            if continuation b1 then
              option_map (cons ((b0 - 192) * 64 + (b1 - 128))) (utf8_decode r1)
            else None
        | _ => None
        end
      else if in_range 224 239 b0 then
        match r0 with
        | b1 :: b2 :: r2 =>
            if in_range (if b0 =? 224 then 160 else 128)
                        (if b0 =? 237 then 159 else 191) b1
               && continuation b2 then
              option_map
                (cons ((b0 - 224) * 4096 + (b1 - 128) * 64 + (b2 - 128)))
                (utf8_decode r2)
            else None
        | _ => None
        end
      else if in_range 240 244 b0 then
        match r0 with
        | b1 :: b2 :: b3 :: r3 =>
            if in_range (if b0 =? 240 then 144 else 128)
                        (if b0 =? 244 then 143 else 191) b1
               && continuation b2 && continuation b3 then
              option_map
                (cons ((b0 - 240) * 262144 + (b1 - 128) * 4096
                       + (b2 - 128) * 64 + (b3 - 128)))
                (utf8_decode r3)
            else None
        | _ => None
        end
      else None
  end.

Definition utf8_encode_char (c : Z) : option pybytes :=
  if in_range 0 127 c then Some [c]
  else if in_range 128 2047 c then Some [192 + c / 64; 128 + c mod 64]
  else if in_range 55296 57343 c then None
  else if in_range 2048 65535 c then
    Some [224 + c / 4096; 128 + (c / 64) mod 64; 128 + c mod 64]
  else if in_range 65536 1114111 c then
    Some [240 + c / 262144; 128 + (c / 4096) mod 64;
          128 + (c / 64) mod 64; 128 + c mod 64]
  else None.

Fixpoint utf8_encode (s : pystr) : option pybytes :=
  match s with
  | [] => Some []
  | c :: s' =>
      match utf8_encode_char c, utf8_encode s' with
      | Some bs, Some bs' => Some (bs ++ bs')
      | _, _ => None
      end
  end.

(** ** Python values and exceptions *)

(** The values a caller can pass where the driver looks at the type. A
    float is a binary64: sign, mantissa and exponent. *)
#[warnings="-register-all"]
Inductive pyval :=
| PyNone
| PyBool (b : bool)
| PyInt (n : Z)
| PyFloat (f : spec_float)
| PyStr (s : pystr)
| PyList (l : list pyval)
| PyTuple (l : list pyval).

Inductive pytype := TNone | TBool | TInt | TFloat | TStr | TList | TTuple.

(** [type(v)]. *)
Definition type_of (v : pyval) : pytype :=
  match v with
  | PyNone => TNone
  | PyBool _ => TBool
  | PyInt _ => TInt
  | PyFloat _ => TFloat
  | PyStr _ => TStr
  | PyList _ => TList
  | PyTuple _ => TTuple
  end.

Definition pytype_eqb (s t : pytype) : bool :=
  match s, t with
  | TNone, TNone | TBool, TBool | TInt, TInt | TFloat, TFloat
  | TStr, TStr | TList, TList | TTuple, TTuple => true
  | _, _ => false
  end.

Inductive exn :=
| AttributeError
| AssertionError (msg : string)
| IndexError
| ValueError
| TypeError
| OverflowError
| UnicodeDecodeError
| UnicodeEncodeError
| PortNotOpenError.

(** The name of the class of an exception. *)
Definition exn_name (e : exn) : string :=
  match e with
  | AttributeError => "AttributeError"
  | AssertionError _ => "AssertionError"
  | IndexError => "IndexError"
  | ValueError => "ValueError"
  | TypeError => "TypeError"
  | OverflowError => "OverflowError"
  | UnicodeDecodeError => "UnicodeDecodeError"
  | UnicodeEncodeError => "UnicodeEncodeError"
  | PortNotOpenError => "PortNotOpenError"
  end.

Inductive result (A : Type) :=
| Return (a : A)
| Raise (e : exn).
Arguments Return {A} a.
Arguments Raise {A} e.

(** The truth value of a value, as [if v:] tests it. *)
Definition truthy (v : pyval) : bool :=
  match v with
  | PyNone => false
  | PyBool b => b
  | PyInt n => negb (n =? 0)
  | PyFloat (S754_zero _) => false
  | PyFloat _ => true
  | PyStr s => negb (len s =? 0)
  | PyList l => negb (len l =? 0)
  | PyTuple l => negb (len l =? 0)
  end.

(** [v != 0]: a number is compared by value, anything else differs. *)
Definition ne_zero (v : pyval) : bool :=
  match v with
  | PyBool b => b
  | PyInt n => negb (n =? 0)
  | PyFloat (S754_zero _) => false
  | _ => true
  end.

(** [int(f)] of a float truncates towards zero. *)
Definition int_of_float (f : spec_float) : result Z :=
  match f with
  | S754_zero _ => Return 0
  | S754_infinity _ => Raise OverflowError
  | S754_nan => Raise ValueError
  | S754_finite s m e =>
      let a := if 0 <=? e then Z.pos m * 2 ^ e else Z.pos m / 2 ^ (- e) in
      Return (if s then - a else a)
  end.

(** [int(v)]. *)
Definition int_of (db : unicode_db) (v : pyval) : result Z :=
  match v with
  | PyBool b => Return (Z.b2z b)
  | PyInt n => Return n
  | PyFloat f => int_of_float f
  | PyStr s =>
      match int_of_str db 10 s with
      | Some n => Return n
      | None => Raise ValueError
      end
  | PyNone | PyList _ | PyTuple _ => Raise TypeError
  end.

(** ** The serial transport

    What the driver asks of [serial.Serial]: [write], [read] and [close].
    [rx] lists what the coming calls of [read] return, one entry a call,
    and nothing once it is used up (the read times out), and [log] keeps
    the calls that reached the line. A closed port refuses both calls. *)

Inductive io_event :=
| EvWrite (data : pybytes)
| EvRead (size : Z).

Record Serial := {
  is_open : bool;
  rx : list pybytes;
  log : list io_event
}.

Inductive device_obj :=
| DevStr (s : pystr)
| DevSerial (p : Serial).

Record RelayBoard := {
  number_of_relays : Z;
  port_name : pystr;
  device : device_obj;
  connected : bool
}.

Definition set_device (b : RelayBoard) (d : device_obj) : RelayBoard :=
  {| number_of_relays := number_of_relays b;
     port_name := port_name b;
     device := d;
     connected := connected b |}.

(** A method runs on the board and returns or raises. *)
Definition M (A : Type) : Type := RelayBoard -> result A * RelayBoard.

Definition ret {A} (a : A) : M A := fun b => (Return a, b).
Definition raise {A} (e : exn) : M A := fun b => (Raise e, b).

Definition bind {A B} (m : M A) (k : A -> M B) : M B :=
  fun b =>
    match m b with
    | (Return a, b') => k a b'
    | (Raise e, b') => (Raise e, b')
    end.

Notation "x <- m ;; k" := (bind m (fun x => k))
  (at level 61, m at next level, right associativity).
Notation "m ;;; k" := (bind m (fun _ => k))
  (at level 61, right associativity).

Definition lift {A} (r : result A) : M A := fun b => (r, b).

Definition or_raise {A} (e : exn) (o : option A) : M A :=
  match o with
  | Some a => ret a
  | None => raise e
  end.

(** [assert cond, msg]. *)
Definition assert (cond : bool) (msg : string) : M unit :=
  if cond then ret tt else raise (AssertionError msg).

(** Looking up a method of [self.device]: the placeholder left by a
    failed open is a [str], which has none of them. *)
Definition device_attr : M unit :=
  fun b =>
    match device b with
    | DevStr _ => (Raise AttributeError, b)
    | DevSerial _ => (Return tt, b)
    end.

Definition serial_write (data : pybytes) : M Z :=
  fun b =>
    match device b with
    | DevStr _ => (Raise AttributeError, b)
    | DevSerial p =>
        if is_open p then
          (Return (len data),
           set_device b
             (DevSerial {| is_open := true; rx := rx p;
                           log := log p ++ [EvWrite data] |}))
        else (Raise PortNotOpenError, b)
    end.

Definition serial_read (size : Z) : M pybytes :=
  fun b =>
    match device b with
    | DevStr _ => (Raise AttributeError, b)
    | DevSerial p =>
        if is_open p then
          (Return (firstn (Z.to_nat size) (hd [] (rx p))),
           set_device b
             (DevSerial {| is_open := true; rx := tl (rx p);
                           log := log p ++ [EvRead size] |}))
        else (Raise PortNotOpenError, b)
    end.

Definition serial_close : M unit :=
  fun b =>
    match device b with
    | DevStr _ => (Raise AttributeError, b)
    | DevSerial p =>
        (Return tt,
         set_device b
           (DevSerial {| is_open := false; rx := rx p; log := log p |}))
    end.

(** [self.device.write(bytes(cmd, 'utf-8'))]: the method is looked up
    before its argument is evaluated. *)
Definition device_write (cmd : pystr) : M Z :=
  device_attr ;;;
  data <- or_raise UnicodeEncodeError (utf8_encode cmd) ;;
  serial_write data.

(** [self.device.read(size)]. *)
Definition device_read (size : Z) : M pybytes :=
  device_attr ;;; serial_read size.

(** [str(response, 'utf-8')]. *)
Definition decode (response : pybytes) : M pystr :=
  or_raise UnicodeDecodeError (utf8_decode response).

(** [l[i]] for a non-negative index. *)
Definition index {A} (l : list A) (i : nat) : M A :=
  or_raise IndexError (nth_error l i).

(** ** The methods of [RelayBoard] *)

(** [__init__]: [opened] is what [serial.Serial(port_name.upper(), 19200,
    timeout=1)] gave, [None] when it raised. The class attributes
    [device = ''] and [connected = False] stay when it raised. *)
Definition init (port_name : pystr) (number_of_relays : Z)
    (opened : option Serial) : RelayBoard :=
  match opened with
  | Some p =>
      {| number_of_relays := number_of_relays; port_name := port_name;
         device := DevSerial p; connected := true |}
  | None =>
      {| number_of_relays := number_of_relays; port_name := port_name;
         device := DevStr []; connected := false |}
  end.

Definition close_port : M unit := serial_close.

(** [range(n)]. *)
Definition range (n : Z) : list Z := map Z.of_nat (seq 0 (Z.to_nat n)).

(** The two filters, the padding and the cut of [set_device_name]. *)
Definition normalize_name (db : unicode_db) (name : pystr) : pystr :=
  let name := filter (fun x => (48 <=? x) && (x <=? 121)) name in
  let name := filter (isalnum db) name in
  let name := zfill 8 name in
  slice_to 8 name.

(** The [for] loop of the list branch of [set_relay], from index [val]. *)
Fixpoint pack_relays (val : Z) (relay_vals : list pyval) (temp_vals : Z) : Z :=
  match relay_vals with
  | [] => temp_vals
  | v :: vs =>
      pack_relays (val + 1) vs
        (if ne_zero v then temp_vals + 2 ^ val else temp_vals)
  end.

(** The list comprehension of [get_relay]. *)
Definition unpack_relays (number_of_relays response : Z) : list Z :=
  map (fun x => Z.land response (2 ^ x) / 2 ^ x) (range number_of_relays).

(** What [get_adc] returns: the integer read, or the float
    [(n / 1023) * 3.3] of the integer [n] read, kept as [n]. *)
Inductive adc_value :=
| AdcRaw (n : Z)
| AdcVolts (n : Z).

Section Methods.

Variable db : unicode_db.

Definition get_device_name : M pystr :=
  device_write (lit "id get" ++ [CR]) ;;;
  response <- device_read 100 ;;
  response <- decode response ;;
  item <- index (split CR response) 1 ;;
  ret (strip [LF] item).

Definition set_device_name (name : pystr) : M unit :=
  let name := normalize_name db name in
  device_write (lit "id set " ++ name ++ [CR]) ;;;
  device_read 100 ;;;
  ret tt.

(** The [while] loop of [clear_buffer]: [None] when the fuel runs out
    before the loop ends. *)
Fixpoint clear_buffer_loop (fuel : nat) (retry_limit retry_count : Z)
  : M (option bool) :=
  match fuel with
  | O => ret None
  | S fuel' =>
      response <- device_read 50 ;;
      response <- decode response ;;
      let retry_count := retry_count + 1 in
      if len response =? 0 then ret (Some true)
      else if retry_limit <? retry_count then ret (Some false)
      else clear_buffer_loop fuel' retry_limit retry_count
  end.

Definition clear_buffer (fuel : nat) (retry_limit : Z) : M (option bool) :=
  clear_buffer_loop fuel retry_limit 0.

Definition read_gpio (port : pyval) : M bool :=
  port <- lift (int_of db port) ;;
  assert ((0 <=? port) && (port <? 10)) "Invalid GPIO Port" ;;;
  device_write (lit "gpio read " ++ str_of_int port ++ [LF; CR]) ;;;
  response <- device_read 100 ;;
  response <- decode response ;;
  response <- index (split LF response) 2 ;;
  n <- or_raise ValueError (int_of_str db 10 (strip [CR] response)) ;;
  ret (negb (n =? 0)).

Definition set_gpio (port status : pyval) : M unit :=
  port <- lift (int_of db port) ;;
  assert ((0 <=? port) && (port <? 10)) "Invalid GPIO Port" ;;;
  let cmd_string :=
    if truthy status then lit "gpio set " ++ str_of_int port ++ lit " " ++ [CR]
    else lit "gpio clear " ++ str_of_int port ++ lit " " ++ [CR] in
  device_write cmd_string ;;;
  device_read 50 ;;;
  ret tt.

Definition get_adc (port raw : pyval) : M adc_value :=
  port <- lift (int_of db port) ;;
  assert ((0 <=? port) && (port <? 5)) "Invalid ADC Port" ;;;
  device_write (lit "adc read " ++ str_of_int port ++ [CR]) ;;;
  response <- device_read 50 ;;
  response <- decode response ;;
  response <- index (split CR response) 1 ;;
  response <- or_raise ValueError (int_of_str db 10 (strip [LF] response)) ;;
  if negb (truthy raw) then ret (AdcVolts response)
  else ret (AdcRaw response).

Definition get_relay : M (list Z) :=
  device_write (lit "relay readall" ++ [CR]) ;;;
  response <- device_read 100 ;;
  response <- decode response ;;
  item <- index (split CR response) 1 ;;
  response <- or_raise ValueError (int_of_str db 16 (strip [LF] item)) ;;
  fun b => ret (unpack_relays (number_of_relays b) response) b.

(** The text [set_relay] puts after [relay writeall], [None] where it
    returns [False] instead. *)
Definition relay_text (number_of_relays : Z) (relay_vals : pyval)
  : option pystr :=
  match relay_vals with
  | PyInt n =>
      let relay_vals := slice_from 2 (hex n) in
      let bits := number_of_relays / 4 in
      Some (zfill bits relay_vals)
  | PyList l =>
      let temp_vals := if 0 <? len l then pack_relays 0 l 0 else 0 in
      let temp_vals := slice_from 2 (hex temp_vals) in
      let bits := number_of_relays / 4 in
      Some (zfill bits temp_vals)
  | _ => None
  end.

Definition set_relay (relay_vals : pyval) : M pyval :=
  assert (negb (pytype_eqb (type_of relay_vals) TFloat))
    "Relay setting can't be float" ;;;
  assert (negb (pytype_eqb (type_of relay_vals) TStr))
    "Relay setting can't be string" ;;;
  fun b =>
    match relay_text (number_of_relays b) relay_vals with
    | Some relay_vals =>
        (device_write (lit "relay writeall " ++ relay_vals ++ [CR]) ;;;
         device_read 100 ;;;
         ret PyNone) b
    | None => ret (PyBool false) b
    end.

End Methods.

(** ** Boards *)

(** A board whose port is open, with the reads to come and the log so
    far. *)
Definition open_board (n : Z) (name : pystr) (rxs : list pybytes)
    (lg : list io_event) : RelayBoard :=
  {| number_of_relays := n; port_name := name;
     device := DevSerial {| is_open := true; rx := rxs; log := lg |};
     connected := true |}.

(** The exception a board that cannot talk raises at its first access to
    the device: the open failed and [device] is still the placeholder, or
    the port was closed. [None] when the port is open. *)
Definition unusable (b : RelayBoard) : option exn :=
  match device b with
  | DevStr _ => Some AttributeError
  | DevSerial p => if is_open p then None else Some PortNotOpenError
  end.

(** The normalization the specification words: alphanumeric characters
    only, padded with zeros and cut to 8. *)
Definition normalize_alnum_only (db : unicode_db) (name : pystr) : pystr :=
  slice_to 8 (zfill 8 (filter (isalnum db) name)).

(** The same with the ASCII letters and digits only. *)
Definition normalize_ascii_alnum (name : pystr) : pystr :=
  slice_to 8 (zfill 8 (filter ascii_alnum name)).

(** The events a run added to the log of an open port. *)
Definition port_log (b : RelayBoard) : list io_event :=
  match device b with
  | DevStr _ => []
  | DevSerial p => log p
  end.

(** ** What the statements speak of *)

(** The lower-case hexadecimal digits. *)
Definition lower_hex (c : Z) : bool := ascii_digit c || in_range 97 102 c.

(** The value of a run of digits, as the scan accumulates it. *)
Definition digits_value (base : Z) (acc : Z) (s : pystr) : Z :=
  fold_left (fun a c => a * base + digit_value c) s acc.

(** The integer whose bit [i] is set iff element [i] is not zero. *)
Fixpoint bits_value (l : list pyval) : Z :=
  match l with
  | [] => 0
  | v :: vs => Z.b2z (ne_zero v) + 2 * bits_value vs
  end.

(** What the check of the port leaves of a call on a board that cannot
    talk: the error of [int(port)], the failed assertion, or the
    exception [e] of the device. *)
Definition port_failure (db : unicode_db) (port : pyval) (bound : Z)
    (msg : string) (e : exn) : exn :=
  match int_of db port with
  | Raise e' => e'
  | Return n => if (0 <=? n) && (n <? bound) then e else AssertionError msg
  end.

(** What [set_relay] does on a board that cannot talk. *)
Definition set_relay_failure (relay_vals : pyval) (e : exn) : result pyval :=
  match type_of relay_vals with
  | TFloat => Raise (AssertionError "Relay setting can't be float")
  | TStr => Raise (AssertionError "Relay setting can't be string")
  | TInt | TList => Raise e
  | _ => Return (PyBool false)
  end.

(** A read that brings bytes that decode. *)
Definition readable (chunk : pybytes) : Prop :=
  chunk <> [] /\ utf8_decode (firstn 50 chunk) <> None.

(** The characters an ASCII literal of [int] in base 10 is made of. *)
Definition literal_char (c : Z) : bool :=
  ascii_digit c || (c =? 95) || (c =? 43) || (c =? 45) || int_space c.

(** The characters of a name that the two filters of [set_device_name]
    let through: the ASCII letters and digits but [z]. *)
Definition name_char (x : Z) : bool := ascii_alnum x && negb (x =? 122).

(** How many times a character occurs in a text. *)
Definition occurrences (c : Z) (s : pystr) : nat := count_occ Z.eq_dec s c.

(** How a run of [clear_buffer] that made [k] reads ended: on a read
    that brought nothing, on the read that passed the limit, or on a read
    that brought bytes that are no UTF-8. *)
Definition drained (turns k : nat) (rxs : list pybytes)
    (r : result (option bool)) : Prop :=
  r = Return (Some true) /\ nth (k - 1) rxs [] = []
  \/ r = Return (Some false) /\ k = turns /\ readable (nth (k - 1) rxs [])
  \/ r = Raise UnicodeDecodeError
     /\ utf8_decode (firstn 50 (nth (k - 1) rxs [])) = None.

(** ** Tactics *)

Ltac unfold_chars :=
  unfold lower_hex, digit_value, digit_char, ascii_alnum, ascii_digit,
    ascii_lower, ascii_upper, is_ascii, int_space, in_range in *.

Ltac bool_lia :=
  repeat match goal with
    | |- context [?a <=? ?b] => destruct (Z.leb_spec a b)
    | |- context [?a <? ?b] => destruct (Z.ltb_spec a b)
    | |- context [?a =? ?b] => destruct (Z.eqb_spec a b)
    | H : context [?a <=? ?b] |- _ => destruct (Z.leb_spec a b)
    | H : context [?a <? ?b] |- _ => destruct (Z.ltb_spec a b)
    | H : context [?a =? ?b] |- _ => destruct (Z.eqb_spec a b)
    end;
  cbv beta iota delta [andb orb negb] in *; try reflexivity; try discriminate; try lia.

(** The steps of a method after its read leave the board alone. *)
Ltac pure_tail :=
  intros;
  unfold bind, decode, index, or_raise, ret, raise;
  repeat match goal with
    | |- context [match ?o with Some _ => _ | None => _ end] => destruct o
    | |- context [if ?c then _ else _] => destruct c
    end;
  reflexivity.

(** ** The monad on an open port *)

Lemma utf8_encode_ascii (s : pystr) :
  forallb is_ascii s = true -> utf8_encode s = Some s.
Proof.
  induction s as [|c s IH]; simpl; [reflexivity|].
  intros H. apply andb_true_iff in H as [Hc Hs].
  rewrite (IH Hs). unfold utf8_encode_char.
  unfold is_ascii in Hc. rewrite Hc. reflexivity.
Qed.

Lemma utf8_decode_ascii (s : pybytes) :
  forallb is_ascii s = true -> utf8_decode s = Some s.
Proof.
  induction s as [|c s IH]; simpl; [reflexivity|].
  intros H. apply andb_true_iff in H as [Hc Hs].
  unfold is_ascii in Hc. rewrite Hc, (IH Hs). reflexivity.
Qed.

Lemma forallb_app_true {A} (f : A -> bool) (l1 l2 : list A) :
  forallb f l1 = true -> forallb f l2 = true -> forallb f (l1 ++ l2) = true.
Proof. intros H1 H2. rewrite forallb_app, H1, H2. reflexivity. Qed.

Lemma device_write_open (cmd : pystr) n name rxs lg :
  forallb is_ascii cmd = true ->
  device_write cmd (open_board n name rxs lg)
  = (Return (len cmd), open_board n name rxs (lg ++ [EvWrite cmd])).
Proof.
  intros H. unfold device_write, bind, device_attr, or_raise. simpl.
  rewrite (utf8_encode_ascii _ H). reflexivity.
Qed.

Lemma device_read_open (size : Z) n name rxs lg :
  device_read size (open_board n name rxs lg)
  = (Return (firstn (Z.to_nat size) (hd [] rxs)),
     open_board n name (tl rxs) (lg ++ [EvRead size])).
Proof. reflexivity. Qed.

Lemma device_write_unusable (cmd : pystr) b e :
  forallb is_ascii cmd = true ->
  unusable b = Some e -> device_write cmd b = (Raise e, b).
Proof.
  intros Hc.
  unfold unusable, device_write, bind, device_attr, or_raise, serial_write.
  rewrite (utf8_encode_ascii _ Hc).
  destruct (device b) as [s|p] eqn:E; simpl.
  - intros [= <-]. reflexivity.
  - destruct (is_open p) eqn:Ho; [discriminate|]. intros [= <-].
    rewrite E, Ho. reflexivity.
Qed.

Lemma device_read_unusable (size : Z) b e :
  unusable b = Some e -> device_read size b = (Raise e, b).
Proof.
  unfold unusable, device_read, bind, device_attr, serial_read.
  destruct (device b) as [s|p] eqn:E; simpl.
  - intros [= <-]. reflexivity.
  - destruct (is_open p) eqn:Ho; [discriminate|]. intros [= <-].
    rewrite E, Ho. reflexivity.
Qed.

(** ** Digits *)

Lemma digit_value_char (d : Z) :
  0 <= d < 36 -> digit_value (digit_char d) = d.
Proof. intros H. unfold_chars. bool_lia. Qed.

Lemma digit_char_ascii (d : Z) :
  0 <= d < 36 -> is_ascii (digit_char d) = true.
Proof. intros H. unfold_chars. bool_lia. Qed.

Lemma digit_char_lower_hex (d : Z) :
  0 <= d < 16 -> lower_hex (digit_char d) = true.
Proof. intros H. unfold_chars. bool_lia. Qed.

Lemma digit_char_decimal (d : Z) :
  0 <= d < 10 -> ascii_digit (digit_char d) = true.
Proof. intros H. unfold_chars. bool_lia. Qed.

(** Every character of [digits base n] is the character of a digit
    below the base. *)
Lemma digits_fuel_Forall (P : Z -> Prop) (base : Z) :
  2 <= base ->
  (forall d, 0 <= d < base -> P (digit_char d)) ->
  forall fuel n, 0 <= n < 2 ^ (Z.of_nat fuel + 1) ->
  Forall P (digits_fuel fuel base n).
Proof.
  intros Hb HP. induction fuel as [|fuel IH]; intros n Hn.
  - simpl in *. constructor; [|constructor]. apply HP. lia.
  - simpl. destruct (Z.ltb_spec n base).
    + constructor; [|constructor]. apply HP. lia.
    + apply Forall_app. split.
      * apply IH. split; [apply Z.div_pos; lia|].
        apply Z.div_lt_upper_bound; [lia|].
        replace (Z.of_nat (S fuel) + 1) with (Z.succ (Z.of_nat fuel + 1)) in Hn by lia.
        rewrite Z.pow_succ_r in Hn by lia.
        assert (0 < 2 ^ (Z.of_nat fuel + 1)) by (apply Z.pow_pos_nonneg; lia).
        nia.
      * constructor; [|constructor]. apply HP. apply Z.mod_pos_bound. lia.
Qed.

Lemma log2_fuel (n : Z) :
  0 <= n -> 0 <= n < 2 ^ (Z.of_nat (Z.to_nat (Z.log2 n)) + 1).
Proof.
  intros Hn. rewrite Z2Nat.id by apply Z.log2_nonneg.
  split; [assumption|].
  destruct (Z.eq_dec n 0) as [->|Hz]; [reflexivity|].
  replace (Z.log2 n + 1) with (Z.succ (Z.log2 n)) by lia.
  apply Z.log2_spec. lia.
Qed.

Lemma digits_Forall (P : Z -> Prop) (base n : Z) :
  2 <= base -> 0 <= n ->
  (forall d, 0 <= d < base -> P (digit_char d)) ->
  Forall P (digits base n).
Proof.
  intros Hb Hn HP. unfold digits.
  apply digits_fuel_Forall; auto using log2_fuel.
Qed.

Lemma digits_fuel_value (base : Z) :
  2 <= base <= 36 ->
  forall fuel n, 0 <= n < 2 ^ (Z.of_nat fuel + 1) ->
  digits_value base 0 (digits_fuel fuel base n) = n.
Proof.
  intros Hb. unfold digits_value.
  induction fuel as [|fuel IH]; intros n Hn.
  - simpl in *. rewrite digit_value_char; lia.
  - simpl. destruct (Z.ltb_spec n base).
    + simpl. rewrite digit_value_char; lia.
    + rewrite fold_left_app. simpl. rewrite IH.
      * rewrite digit_value_char.
        -- rewrite Z.mul_comm. symmetry. apply Z.div_mod. lia.
        -- assert (0 <= n mod base < base) by (apply Z.mod_pos_bound; lia). lia.
      * split; [apply Z.div_pos; lia|].
        apply Z.div_lt_upper_bound; [lia|].
        replace (Z.of_nat (S fuel) + 1) with (Z.succ (Z.of_nat fuel + 1)) in Hn by lia.
        rewrite Z.pow_succ_r in Hn by lia.
        assert (0 < 2 ^ (Z.of_nat fuel + 1)) by (apply Z.pow_pos_nonneg; lia).
        nia.
Qed.

Lemma digits_value_digits (base n : Z) :
  2 <= base <= 36 -> 0 <= n -> digits_value base 0 (digits base n) = n.
Proof.
  intros Hb Hn. unfold digits. apply digits_fuel_value; auto using log2_fuel.
Qed.

Lemma digits_value_zeros (base : Z) (k : Z) (s : pystr) :
  digits_value base 0 (zeros k ++ s) = digits_value base 0 s.
Proof.
  unfold digits_value, zeros. rewrite fold_left_app. f_equal.
  induction (Z.to_nat k) as [|m IH]; simpl; [reflexivity|exact IH].
Qed.

Lemma digits_nonempty (base n : Z) : digits base n <> [].
Proof.
  unfold digits. destruct (Z.to_nat (Z.log2 n)); simpl; [discriminate|].
  destruct (n <? base); [discriminate|].
  intros H. apply app_eq_nil in H as [_ H]. discriminate.
Qed.

(** The scan takes a run of digits whole. *)
Lemma scan_digits_run (base : Z) (s : pystr) :
  base <= 36 ->
  Forall (fun c => digit_value c < base) s ->
  forall acc, scan_digits base acc false s = Some (digits_value base acc s, []).
Proof.
  intros Hb H. induction H as [|c s Hc Hs IH]; intros acc; simpl.
  - reflexivity.
  - destruct (Z.eqb_spec c 95) as [->|Hne].
    + change (digit_value 95) with 37 in Hc. lia.
    + destruct (Z.ltb_spec (digit_value c) base); [|lia].
      apply IH.
Qed.

(** ** Reading back a run of digits *)

Lemma digit_value_facts (base c : Z) :
  base <= 33 -> digit_value c < base ->
  is_ascii c = true /\ int_space c = false /\ c <> 43 /\ c <> 45
  /\ c <> 120 /\ c <> 88 /\ c <> 95.
Proof. intros Hb Hc. unfold_chars. bool_lia; repeat split; bool_lia. Qed.

Lemma run_is_ascii (base : Z) (s : pystr) :
  base <= 33 -> Forall (fun c => digit_value c < base) s ->
  forallb is_ascii s = true.
Proof.
  intros Hb H. apply forallb_forall. intros c Hc.
  rewrite Forall_forall in H.
  apply (digit_value_facts base c Hb (H c Hc)).
Qed.

Lemma skip_prefix_run (base : Z) (s : pystr) :
  base <= 33 -> Forall (fun c => digit_value c < base) s ->
  skip_prefix base s = s.
Proof.
  intros Hb H. destruct s as [|c0 [|c1 s]]; try reflexivity.
  inversion H as [|? ? _ H1]; subst. inversion H1 as [|? ? Hc1 _]; subst.
  destruct (digit_value_facts base c1 Hb Hc1) as (_ & _ & _ & _ & Hx & HX & _).
  simpl. apply Z.eqb_neq in Hx, HX. rewrite Hx, HX.
  rewrite andb_false_r. reflexivity.
Qed.

Lemma parse_int_ascii_run (base : Z) (s : pystr) :
  base <= 33 -> s <> [] -> Forall (fun c => digit_value c < base) s ->
  parse_int_ascii base s = Some (digits_value base 0 s).
Proof.
  intros Hb Hne H. destruct s as [|c s]; [congruence|].
  inversion H as [|? ? Hc Hs]; subst.
  destruct (digit_value_facts base c Hb Hc) as (_ & Hsp & Hp & Hm & _).
  unfold parse_int_ascii. simpl lstrip_space. rewrite Hsp.
  unfold skip_sign. apply Z.eqb_neq in Hp, Hm. rewrite Hp, Hm.
  rewrite (skip_prefix_run base (c :: s) Hb H).
  apply Z.ltb_lt in Hc. rewrite Hc.
  rewrite (scan_digits_run base (c :: s)); [reflexivity|lia|exact H].
Qed.

Lemma parse_int_ascii_minus_run (base : Z) (s : pystr) :
  base <= 33 -> s <> [] -> Forall (fun c => digit_value c < base) s ->
  parse_int_ascii base (45 :: s) = Some (- digits_value base 0 s).
Proof.
  intros Hb Hne H. unfold parse_int_ascii.
  simpl lstrip_space. simpl skip_sign. cbv beta iota.
  rewrite (skip_prefix_run base s Hb H).
  destruct s as [|c s]; [congruence|].
  inversion H as [|? ? Hc Hs]; subst.
  apply Z.ltb_lt in Hc. rewrite Hc.
  rewrite (scan_digits_run base (c :: s)); [reflexivity|lia|exact H].
Qed.

Lemma int_of_str_run (db : unicode_db) (base : Z) (s : pystr) :
  base <= 33 -> s <> [] -> Forall (fun c => digit_value c < base) s ->
  int_of_str db base s = Some (digits_value base 0 s).
Proof.
  intros Hb Hne H. unfold int_of_str, int_text.
  rewrite (run_is_ascii base s Hb H). apply parse_int_ascii_run; assumption.
Qed.

Lemma digits_run (base n : Z) :
  2 <= base <= 36 -> 0 <= n ->
  Forall (fun c => digit_value c < base) (digits base n).
Proof.
  intros Hb Hn. apply digits_Forall; [lia|assumption|].
  intros d Hd. rewrite digit_value_char; lia.
Qed.

Lemma zeros_run (base k : Z) :
  1 <= base -> Forall (fun c => digit_value c < base) (zeros k).
Proof.
  intros Hb. unfold zeros. apply Forall_forall. intros c Hc.
  apply repeat_spec in Hc. subst c. change (digit_value 48) with 0. lia.
Qed.

(** [int(str(n))] is [n], for every integer. *)
Lemma int_of_str_str_of_int (db : unicode_db) (n : Z) :
  int_of_str db 10 (str_of_int n) = Some n.
Proof.
  assert (R : Forall (fun c => digit_value c < 10) (digits 10 (Z.abs n)))
    by (apply digits_run; lia).
  assert (V : digits_value 10 0 (digits 10 (Z.abs n)) = Z.abs n)
    by (apply digits_value_digits; lia).
  unfold str_of_int, sign_prefix. destruct (Z.ltb_spec n 0).
  - unfold int_of_str, int_text. simpl app.
    change (forallb is_ascii (45 :: digits 10 (Z.abs n)))
      with (is_ascii 45 && forallb is_ascii (digits 10 (Z.abs n))).
    rewrite (run_is_ascii 10 _ ltac:(lia) R). simpl andb. cbv beta iota.
    rewrite parse_int_ascii_minus_run;
      [rewrite V; f_equal; lia|lia|apply digits_nonempty|exact R].
  - simpl app. rewrite int_of_str_run;
      [rewrite V; f_equal; lia|lia|apply digits_nonempty|exact R].
Qed.

(** ** Packing and unpacking the relay bits *)

Lemma bits_value_nonneg (l : list pyval) : 0 <= bits_value l.
Proof.
  induction l as [|v l IH]; cbn [bits_value]; [lia|].
  destruct (ne_zero v); cbn [Z.b2z]; lia.
Qed.

Lemma pack_relays_value (l : list pyval) :
  forall val temp_vals, 0 <= val ->
  pack_relays val l temp_vals = temp_vals + 2 ^ val * bits_value l.
Proof.
  induction l as [|v l IH]; intros val t Hval; cbn [pack_relays bits_value].
  - lia.
  - rewrite IH by lia.
    replace (val + 1) with (Z.succ val) by lia.
    rewrite Z.pow_succ_r by lia.
    destruct (ne_zero v); cbn [Z.b2z]; lia.
Qed.

Lemma pack_relays_bits (l : list pyval) :
  pack_relays 0 l 0 = bits_value l.
Proof. rewrite pack_relays_value by lia. rewrite Z.pow_0_r. lia. Qed.

Lemma land_pow2_div (v x : Z) :
  0 <= x -> Z.land v (2 ^ x) / 2 ^ x = Z.b2z (Z.testbit v x).
Proof.
  intros Hx.
  assert (E : Z.land v (2 ^ x) = Z.b2z (Z.testbit v x) * 2 ^ x).
  { apply Z.bits_inj'. intros i Hi.
    rewrite Z.land_spec, Z.pow2_bits_eqb by lia.
    destruct (Z.eqb_spec x i) as [->|Hne].
    - rewrite andb_true_r. destruct (Z.testbit v i); cbn [Z.b2z].
      + rewrite Z.mul_1_l, Z.pow2_bits_true; [reflexivity|lia].
      + rewrite Z.mul_0_l, Z.bits_0. reflexivity.
    - rewrite andb_false_r. destruct (Z.testbit v x); cbn [Z.b2z].
      + rewrite Z.mul_1_l, Z.pow2_bits_false; [reflexivity|lia].
      + rewrite Z.mul_0_l, Z.bits_0. reflexivity. }
  rewrite E. apply Z.div_mul.
  apply Z.pow_nonzero; lia.
Qed.

Lemma unpack_relays_testbit (n v : Z) :
  unpack_relays n v = map (fun x => Z.b2z (Z.testbit v x)) (range n).
Proof.
  unfold unpack_relays, range. apply map_ext_in. intros x Hx.
  apply in_map_iff in Hx as (k & <- & _). apply land_pow2_div. lia.
Qed.

Lemma bits_value_testbit (l : list pyval) :
  map (fun x => Z.b2z (Z.testbit (bits_value l) x))
      (map Z.of_nat (seq 0 (length l)))
  = map (fun v => Z.b2z (ne_zero v)) l.
Proof.
  induction l as [|v l IH]; [reflexivity|].
  cbn [length seq map bits_value]. f_equal.
  - change (Z.of_nat 0) with 0.
    rewrite Z.add_comm, Z.testbit_0_r. reflexivity.
  - rewrite <- IH, <- seq_shift, !map_map. apply map_ext. intros k.
    rewrite Nat2Z.inj_succ, Z.add_comm, Z.testbit_succ_r by lia.
    reflexivity.
Qed.

(** Unpacking what was packed gives each element as 0 or 1. *)
Lemma unpack_pack (l : list pyval) :
  unpack_relays (len l) (pack_relays 0 l 0)
  = map (fun v => Z.b2z (ne_zero v)) l.
Proof.
  rewrite unpack_relays_testbit, pack_relays_bits. unfold range, len.
  rewrite Nat2Z.id. apply bits_value_testbit.
Qed.

(** ** The hexadecimal text of [set_relay] *)

Lemma hex_nonneg (n : Z) :
  0 <= n -> slice_from 2 (hex n) = digits 16 n.
Proof.
  intros Hn. unfold hex, sign_prefix.
  destruct (Z.ltb_spec n 0); [lia|].
  rewrite Z.abs_eq by lia. reflexivity.
Qed.

Lemma zfill_run (base width : Z) (s : pystr) :
  base <= 33 -> s <> [] -> Forall (fun c => digit_value c < base) s ->
  zfill width s = zeros (width - len s) ++ s.
Proof.
  intros Hb Hne H. unfold zfill.
  destruct (Z.leb_spec width (len s)).
  - unfold zeros. replace (Z.to_nat (width - len s)) with O by lia.
    reflexivity.
  - destruct s as [|c s]; [congruence|].
    inversion H as [|? ? Hc _]; subst.
    destruct (digit_value_facts base c Hb Hc) as (_ & _ & Hp & Hm & _).
    apply Z.eqb_neq in Hp, Hm. rewrite Hp, Hm. reflexivity.
Qed.

(** The text written for a non-negative integer [v]: its lower-case
    hexadecimal digits after the zeros that fill [n / 4] places, and it
    reads back as [v]. *)
Lemma relay_hex_text (db : unicode_db) (n v : Z) :
  0 <= v ->
  let h := zfill (n / 4) (slice_from 2 (hex v)) in
  h = zeros (n / 4 - len (digits 16 v)) ++ digits 16 v
  /\ forallb lower_hex h = true
  /\ int_of_str db 16 h = Some v.
Proof.
  intros Hv h. subst h. rewrite hex_nonneg by assumption.
  assert (R : Forall (fun c => digit_value c < 16) (digits 16 v))
    by (apply digits_run; lia).
  rewrite (zfill_run 16) by (auto using digits_nonempty; lia).
  split; [reflexivity|]. split.
  - apply forallb_app_true.
    + unfold zeros. apply forallb_forall. intros c Hc.
      apply repeat_spec in Hc. subst c. reflexivity.
    + apply forallb_forall. apply Forall_forall.
      apply digits_Forall; [lia|assumption|].
      intros d Hd. apply digit_char_lower_hex. assumption.
  - rewrite (int_of_str_run db 16).
    + rewrite digits_value_zeros, digits_value_digits by lia. reflexivity.
    + lia.
    + intros E. apply app_eq_nil in E as [_ E].
      exact (digits_nonempty _ _ E).
    + apply Forall_app. split; [apply zeros_run; lia|exact R].
Qed.

(** ** Every command is ASCII *)

Lemma forallb_skipn {A} (f : A -> bool) (n : nat) (l : list A) :
  forallb f l = true -> forallb f (skipn n l) = true.
Proof.
  revert l. induction n as [|n IH]; intros [|a l]; simpl; auto.
  intros H. apply andb_true_iff in H as [_ H]. auto.
Qed.

Lemma forallb_firstn {A} (f : A -> bool) (n : nat) (l : list A) :
  forallb f l = true -> forallb f (firstn n l) = true.
Proof.
  revert l. induction n as [|n IH]; intros [|a l]; simpl; auto.
  intros H. apply andb_true_iff in H as [Ha H]. rewrite Ha. simpl. auto.
Qed.

Lemma zeros_ascii (k : Z) : forallb is_ascii (zeros k) = true.
Proof.
  unfold zeros. apply forallb_forall. intros c Hc.
  apply repeat_spec in Hc. subst c. reflexivity.
Qed.

Lemma zfill_ascii (width : Z) (s : pystr) :
  forallb is_ascii s = true -> forallb is_ascii (zfill width s) = true.
Proof.
  intros H. unfold zfill. destruct (width <=? len s); [exact H|].
  destruct s as [|c s]; [apply zeros_ascii|].
  simpl in H. apply andb_true_iff in H as [Hc Hs].
  destruct ((c =? 43) || (c =? 45)).
  - simpl. rewrite Hc. apply forallb_app_true; [apply zeros_ascii|exact Hs].
  - apply forallb_app_true; [apply zeros_ascii|].
    simpl. rewrite Hc. exact Hs.
Qed.

Lemma digits_ascii (base n : Z) :
  2 <= base <= 36 -> 0 <= n -> forallb is_ascii (digits base n) = true.
Proof.
  intros Hb Hn. apply forallb_forall. apply Forall_forall.
  apply digits_Forall; [lia|assumption|].
  intros d Hd. apply digit_char_ascii. lia.
Qed.

Lemma sign_prefix_ascii (n : Z) : forallb is_ascii (sign_prefix n) = true.
Proof. unfold sign_prefix. destruct (n <? 0); reflexivity. Qed.

Lemma str_of_int_ascii (n : Z) : forallb is_ascii (str_of_int n) = true.
Proof.
  unfold str_of_int.
  apply forallb_app_true; [apply sign_prefix_ascii|].
  apply digits_ascii; lia.
Qed.

Lemma hex_ascii (n : Z) : forallb is_ascii (hex n) = true.
Proof.
  unfold hex.
  apply forallb_app_true; [apply sign_prefix_ascii|].
  apply forallb_app_true; [reflexivity|].
  apply digits_ascii; lia.
Qed.

Lemma relay_text_ascii (n : Z) (v : pyval) (t : pystr) :
  relay_text n v = Some t -> forallb is_ascii t = true.
Proof.
  destruct v; cbn [relay_text]; try discriminate; intros [= <-];
    apply zfill_ascii; apply (forallb_skipn is_ascii 2 (hex _)), hex_ascii.
Qed.

Lemma normalize_name_ascii (db : unicode_db) (name : pystr) :
  forallb is_ascii (normalize_name db name) = true.
Proof.
  unfold normalize_name, slice_to.
  apply forallb_firstn, zfill_ascii.
  apply forallb_forall. intros c Hc.
  apply filter_In in Hc as [Hc _]. apply filter_In in Hc as [_ Hc].
  unfold_chars. bool_lia.
Qed.

(** ** A board that cannot talk *)

(** The two ways to such a board: the open failed, or the port was
    closed. *)
Lemma failed_open_unusable (port_name : pystr) (n : Z) :
  unusable (init port_name n None) = Some AttributeError
  /\ connected (init port_name n None) = false.
Proof. split; reflexivity. Qed.

Lemma closed_port_unusable (n : Z) (name : pystr) (rxs : list pybytes)
    (lg : list io_event) :
  fst (close_port (open_board n name rxs lg)) = Return tt
  /\ unusable (snd (close_port (open_board n name rxs lg)))
     = Some PortNotOpenError
  /\ port_log (snd (close_port (open_board n name rxs lg))) = lg.
Proof. repeat split. Qed.


Lemma port_method_unusable {A} (db : unicode_db) (port : pyval) (bound : Z)
    (msg : string) (e : exn) (b : RelayBoard)
    (cmd : Z -> pystr) (k : M A) :
  unusable b = Some e ->
  (forall n, forallb is_ascii (cmd n) = true) ->
  (port <- lift (int_of db port) ;;
   assert ((0 <=? port) && (port <? bound)) msg ;;;
   device_write (cmd port) ;;; k) b
  = (Raise (port_failure db port bound msg e), b).
Proof.
  intros H Hc. unfold bind, lift, port_failure.
  destruct (int_of db port) as [n|e']; [|reflexivity].
  unfold assert. destruct ((0 <=? n) && (n <? bound)); [|reflexivity].
  cbn [ret]. rewrite (device_write_unusable _ _ _ (Hc n) H). reflexivity.
Qed.

(** C3 (as amended): on a board whose open failed or whose port was
    closed no method writes to or reads from the transport, for the board
    is left as it was. A method raises the exception of its first access
    to the device, [AttributeError] after a failed open, unless a check
    of its argument stops it before: a method with a port raises the
    error of [int(port)] or the failed assertion, and [set_relay] raises
    the failed assertion on a float or a text and returns [False] on what
    is neither an integer nor a list. *)
Theorem unusable_board_methods (db : unicode_db) (b : RelayBoard) (e : exn) :
  unusable b = Some e ->
  get_device_name b = (Raise e, b)
  /\ (forall name, set_device_name db name b = (Raise e, b))
  /\ (forall fuel retry_limit,
       clear_buffer (S fuel) retry_limit b = (Raise e, b))
  /\ (forall port,
       read_gpio db port b
       = (Raise (port_failure db port 10 "Invalid GPIO Port" e), b))
  /\ (forall port status,
       set_gpio db port status b
       = (Raise (port_failure db port 10 "Invalid GPIO Port" e), b))
  /\ (forall port raw,
       get_adc db port raw b
       = (Raise (port_failure db port 5 "Invalid ADC Port" e), b))
  /\ get_relay db b = (Raise e, b)
  /\ (forall relay_vals,
       set_relay relay_vals b = (set_relay_failure relay_vals e, b)).
Proof.
  intros H. repeat split; intros.
  - unfold get_device_name, bind.
    rewrite (device_write_unusable _ b e); [reflexivity|reflexivity|exact H].
  - unfold set_device_name, bind.
    rewrite (device_write_unusable _ b e); [reflexivity| |exact H].
    apply forallb_app_true; [reflexivity|].
    apply forallb_app_true; [apply normalize_name_ascii|reflexivity].
  - unfold clear_buffer. cbn [clear_buffer_loop]. unfold bind.
    rewrite (device_read_unusable _ _ _ H). reflexivity.
  - unfold read_gpio.
    apply (port_method_unusable db port 10 _ e b
             (fun n => lit "gpio read " ++ str_of_int n ++ [LF; CR])); [exact H|].
    intros n. apply forallb_app_true; [reflexivity|].
    apply forallb_app_true; [apply str_of_int_ascii|reflexivity].
  - unfold set_gpio.
    apply (port_method_unusable db port 10 _ e b
             (fun n => if truthy status
                       then lit "gpio set " ++ str_of_int n ++ lit " " ++ [CR]
                       else lit "gpio clear " ++ str_of_int n ++ lit " " ++ [CR]));
      [exact H|].
    intros n. destruct (truthy status);
      (apply forallb_app_true; [reflexivity|];
       apply forallb_app_true; [apply str_of_int_ascii|reflexivity]).
  - unfold get_adc.
    apply (port_method_unusable db port 5 _ e b
             (fun n => lit "adc read " ++ str_of_int n ++ [CR])); [exact H|].
    intros n. apply forallb_app_true; [reflexivity|].
    apply forallb_app_true; [apply str_of_int_ascii|reflexivity].
  - unfold get_relay, bind.
    rewrite (device_write_unusable _ b e); [reflexivity|reflexivity|exact H].
  - unfold set_relay, set_relay_failure, bind, assert.
    destruct relay_vals;
      cbn -[lit app zfill hex slice_from device_write device_read];
      try reflexivity;
      (rewrite (device_write_unusable _ b e); [reflexivity| |exact H];
       apply forallb_app_true; [reflexivity|];
       apply forallb_app_true; [|reflexivity];
       apply zfill_ascii, (forallb_skipn is_ascii 2 (hex _)), hex_ascii).
Qed.

(** The theorem at a board left by a failed open. *)
Lemma unusable_board_methods_witness :
  unusable (init (lit "COM6") 16 None) = Some AttributeError
  /\ get_device_name (init (lit "COM6") 16 None)
     = (Raise AttributeError, init (lit "COM6") 16 None).
Proof.
  split; [reflexivity|].
  apply (unusable_board_methods ascii_db (init (lit "COM6") 16 None)
           AttributeError).
  reflexivity.
Defined.

(** C3 (as stated) fails: on a board whose open failed [set_relay(True)]
    returns [False] and raises nothing, and [get_device_name] raises an
    [AttributeError]; no method knows of an error for a board that is not
    connected. *)
Lemma failed_open_not_reported :
  set_relay (PyBool true) (init (lit "COM6") 16 None)
  = (Return (PyBool false), init (lit "COM6") 16 None)
  /\ get_device_name (init (lit "COM6") 16 None)
     = (Raise AttributeError, init (lit "COM6") 16 None)
  /\ exn_name AttributeError <> "NotConnected"%string.
Proof. repeat split. discriminate. Qed.

(** ** [set_relay] and the type of its argument *)

(** The two calls of the docstring of [set_relay] write the same
    command on a board of 8 relays. *)
Example set_relay_docstring :
  port_log (snd (set_relay (PyInt 137) (open_board 8 (lit "COM6") [] [])))
  = [EvWrite (lit "relay writeall 89" ++ [CR]); EvRead 100]
  /\ port_log
       (snd (set_relay
               (PyList [PyInt 1; PyInt 0; PyInt 0; PyInt 1;
                        PyInt 0; PyInt 0; PyInt 0; PyInt 1])
               (open_board 8 (lit "COM6") [] [])))
     = [EvWrite (lit "relay writeall 89" ++ [CR]); EvRead 100].
Proof. split; reflexivity. Qed.


(** C10: [set_relay] on a value that is no integer, list, float or text,
    a boolean among them, returns [False] and leaves the board as it was:
    nothing is written to the transport and nothing is read from it. *)
Theorem set_relay_other_type (relay_vals : pyval) (b : RelayBoard) :
  type_of relay_vals <> TInt ->
  type_of relay_vals <> TList ->
  type_of relay_vals <> TFloat ->
  type_of relay_vals <> TStr ->
  set_relay relay_vals b = (Return (PyBool false), b).
Proof.
  intros Hi Hl Hf Hs.
  destruct relay_vals; cbn [type_of] in *; try congruence; reflexivity.
Qed.

(** The theorem at [set_relay(True)] on a connected 16-relay board. *)
Lemma set_relay_other_type_witness :
  set_relay (PyBool true) (open_board 16 (lit "COM6") [] [])
  = (Return (PyBool false), open_board 16 (lit "COM6") [] []).
Proof.
  apply (set_relay_other_type (PyBool true)); discriminate.
Defined.

(** C2: the input is not cut to the relays of the board. On a board of
    8 relays the integer [0x1ff] goes out as the three digits [1ff], not
    as the [ff] of its low eight bits, and a list of nine entries whose
    last is set goes out as [100], not as the [00] of its first eight. *)
Theorem set_relay_excess_not_truncated :
  port_log (snd (set_relay (PyInt 511) (open_board 8 (lit "COM6") [] [])))
  = [EvWrite (lit "relay writeall 1ff" ++ [CR]); EvRead 100]
  /\ port_log (snd (set_relay (PyInt 255) (open_board 8 (lit "COM6") [] [])))
     = [EvWrite (lit "relay writeall ff" ++ [CR]); EvRead 100]
  /\ port_log
       (snd (set_relay
               (PyList (repeat (PyInt 0) 8 ++ [PyInt 1]))
               (open_board 8 (lit "COM6") [] [])))
     = [EvWrite (lit "relay writeall 100" ++ [CR]); EvRead 100]
  /\ port_log
       (snd (set_relay
               (PyList (repeat (PyInt 0) 8))
               (open_board 8 (lit "COM6") [] [])))
     = [EvWrite (lit "relay writeall 00" ++ [CR]); EvRead 100].
Proof. repeat split; vm_compute; reflexivity. Qed.

(** ** The name of the device *)

(** C9: the name ["ab!c#1"] loses the two characters that are neither
    letters nor digits, is filled with zeros on the left to 8 characters,
    and [set_device_name] writes [id set 0000abc1] and a carriage
    return. *)
Theorem set_device_name_example (db : unicode_db) (n : Z) (name : pystr)
    (rxs : list pybytes) (lg : list io_event) :
  filter (isalnum db) (lit "ab!c#1") = lit "abc1"
  /\ normalize_name db (lit "ab!c#1") = zfill 8 (lit "abc1")
  /\ normalize_name db (lit "ab!c#1") = lit "0000abc1"
  /\ set_device_name db (lit "ab!c#1") (open_board n name rxs lg)
     = (Return tt,
        open_board n name (tl rxs)
          (lg ++ [EvWrite (lit "id set 0000abc1" ++ [CR]); EvRead 100])).
Proof.
  assert (N : normalize_name db (lit "ab!c#1") = lit "0000abc1")
    by reflexivity.
  repeat split; try reflexivity.
  unfold set_device_name. rewrite N. unfold bind.
  rewrite device_write_open by reflexivity.
  rewrite device_read_open. unfold ret.
  rewrite <- app_assoc. reflexivity.
Qed.

(** ** The commands on the wire *)

Lemma str_of_int_digit (p : Z) : 0 <= p < 10 -> str_of_int p = [48 + p].
Proof.
  intros Hp. unfold str_of_int, sign_prefix, digits.
  destruct (Z.ltb_spec p 0); [lia|].
  rewrite Z.abs_eq by lia. cbn [app].
  assert (D : digit_char p = 48 + p) by (unfold digit_char; bool_lia).
  destruct (Z.to_nat (Z.log2 p)); cbn [digits_fuel]; [now rewrite D|].
  destruct (Z.ltb_spec p 10); [now rewrite D|lia].
Qed.

(** One exchange: the command goes out, one read follows, and the log
    grows by these two whatever the rest of the method makes of the
    reply. *)
Lemma exchange_log {A} (cmd : pystr) (size : Z) (k : pybytes -> M A)
    n name rxs lg :
  forallb is_ascii cmd = true ->
  (forall r b, snd (k r b) = b) ->
  port_log
    (snd ((device_write cmd ;;; response <- device_read size ;; k response)
            (open_board n name rxs lg)))
  = lg ++ [EvWrite cmd; EvRead size].
Proof.
  intros Hc Hk. unfold bind at 1 2.
  rewrite (device_write_open _ _ _ _ _ Hc), device_read_open.
  rewrite Hk. cbn [port_log open_board device log].
  rewrite <- app_assoc. reflexivity.
Qed.

Lemma port_checked {A} (db : unicode_db) (port : pyval) (p bound : Z)
    (msg : string) (k : Z -> M A) (b : RelayBoard) :
  int_of db port = Return p -> 0 <= p < bound ->
  (port <- lift (int_of db port) ;;
   assert ((0 <=? port) && (port <? bound)) msg ;;; k port) b
  = k p b.
Proof.
  intros Hi Hp. unfold bind at 1 2. unfold lift. rewrite Hi.
  replace ((0 <=? p) && (p <? bound)) with true by (symmetry; bool_lia).
  reflexivity.
Qed.

(** One exchange whose reply decodes: the rest of the method runs on the
    text of the reply. *)
Lemma exchange_reply {A} (cmd : pystr) (size : Z) (k : pystr -> M A)
    n name reply rxs lg text :
  forallb is_ascii cmd = true ->
  utf8_decode (firstn (Z.to_nat size) reply) = Some text ->
  (device_write cmd ;;;
   response <- device_read size ;;
   response <- decode response ;;
   k response) (open_board n name (reply :: rxs) lg)
  = k text (open_board n name rxs (lg ++ [EvWrite cmd; EvRead size])).
Proof.
  intros Hc Hd. unfold bind at 1 2 3.
  rewrite (device_write_open _ _ _ _ _ Hc), device_read_open.
  cbn [hd tl]. unfold decode. rewrite Hd. cbn [or_raise ret].
  rewrite <- app_assoc. reflexivity.
Qed.

Lemma relay_command_ascii (t : pystr) :
  forallb is_ascii t = true ->
  forallb is_ascii (lit "relay writeall " ++ t ++ [CR]) = true.
Proof.
  intros Ht. apply forallb_app_true; [reflexivity|].
  apply forallb_app_true; [exact Ht|reflexivity].
Qed.

(** [set_relay] on an integer or a list is one exchange. *)
Lemma set_relay_exchange (relay_vals : pyval) (t : pystr) n name rxs lg :
  relay_text n relay_vals = Some t ->
  set_relay relay_vals (open_board n name rxs lg)
  = (device_write (lit "relay writeall " ++ t ++ [CR]) ;;;
     device_read 100 ;;; ret PyNone) (open_board n name rxs lg).
Proof.
  intros T. unfold set_relay, bind at 1 2, assert.
  destruct relay_vals; try discriminate T;
    cbn [type_of pytype_eqb negb ret number_of_relays open_board];
    rewrite T; reflexivity.
Qed.

Lemma set_relay_log (relay_vals : pyval) (t : pystr) n name rxs lg :
  relay_text n relay_vals = Some t ->
  port_log (snd (set_relay relay_vals (open_board n name rxs lg)))
  = lg ++ [EvWrite (lit "relay writeall " ++ t ++ [CR]); EvRead 100].
Proof.
  intros T. rewrite (set_relay_exchange _ _ _ _ _ _ T).
  apply (exchange_log _ 100 (fun _ => ret PyNone)); [|pure_tail].
  apply relay_command_ascii, (relay_text_ascii _ _ _ T).
Qed.

Lemma relay_text_list (n : Z) (l : list pyval) :
  relay_text n (PyList l)
  = Some (zfill (n / 4) (slice_from 2 (hex (bits_value l)))).
Proof.
  cbn [relay_text]. rewrite <- pack_relays_bits.
  destruct (0 <? len l) eqn:E; [reflexivity|].
  destruct l; [reflexivity|]. unfold len in E. cbn [length] in E.
  apply Z.ltb_ge in E. lia.
Qed.

(** [get_relay] on a reply that decodes and has a second item between
    carriage returns: the item without its line feeds is read in base 16
    and unpacked. *)
Lemma get_relay_reply (db : unicode_db) n name reply rxs lg text item :
  utf8_decode (firstn 100 reply) = Some text ->
  nth_error (split CR text) 1 = Some item ->
  fst (get_relay db (open_board n name (reply :: rxs) lg))
  = match int_of_str db 16 (strip [LF] item) with
    | Some v => Return (unpack_relays n v)
    | None => Raise ValueError
    end.
Proof.
  intros Hd Hi. unfold get_relay.
  rewrite (exchange_reply _ 100 _ n name reply rxs lg text);
    [|reflexivity|exact Hd].
  unfold bind, index. rewrite Hi. cbn [or_raise ret].
  destruct (int_of_str db 16 (strip [LF] item)); reflexivity.
Qed.

(** C4: the command of [set_device_name] is not the one of the table
    when the name holds a [z]. The name [abcdefgz], eight letters, goes
    out as [0abcdefg]: the [z] is dropped, where the rule of the name,
    letters and digits only, keeps all eight, and a zero fills the place
    in front. The name [abcdefgy] goes out as it is: the bound 121 of
    the first filter is the code of [y], one below that of [z]. *)
Theorem set_device_name_drops_z (db : unicode_db) (n : Z) (name : pystr)
    (rxs : list pybytes) (lg : list io_event) :
  set_device_name db (lit "abcdefgz") (open_board n name rxs lg)
  = (Return tt,
     open_board n name (tl rxs)
       (lg ++ [EvWrite (lit "id set 0abcdefg" ++ [CR]); EvRead 100]))
  /\ normalize_alnum_only db (lit "abcdefgz") = lit "abcdefgz"
  /\ set_device_name db (lit "abcdefgy") (open_board n name rxs lg)
     = (Return tt,
        open_board n name (tl rxs)
          (lg ++ [EvWrite (lit "id set abcdefgy" ++ [CR]); EvRead 100])).
Proof.
  assert (Nz : normalize_name db (lit "abcdefgz") = lit "0abcdefg")
    by reflexivity.
  assert (Ny : normalize_name db (lit "abcdefgy") = lit "abcdefgy")
    by reflexivity.
  split; [|split; [reflexivity|]]; unfold set_device_name;
    [rewrite Nz|rewrite Ny]; unfold bind;
    rewrite device_write_open by reflexivity;
    rewrite device_read_open; unfold ret;
    rewrite <- app_assoc; reflexivity.
Qed.

(** ** The round trip of the relay state *)

(** The list [set_relay] is given, read back by [get_relay] from the
    text written, for a list of any length on a board of as many relays:
    each element comes back as 1 when it was not zero and as 0 when it
    was. *)
Lemma relay_roundtrip_values (db : unicode_db) (l : list pyval) :
  exists h v,
    relay_text (len l) (PyList l) = Some h
    /\ int_of_str db 16 h = Some v
    /\ unpack_relays (len l) v = map (fun x => Z.b2z (ne_zero x)) l.
Proof.
  exists (zfill (len l / 4) (slice_from 2 (hex (bits_value l)))).
  exists (bits_value l).
  split; [apply relay_text_list|]. split.
  - apply (relay_hex_text db (len l) (bits_value l)), bits_value_nonneg.
  - rewrite <- pack_relays_bits. apply unpack_pack.
Qed.

(** C1: for a board of 4, 8, 16 or 32 relays and a sequence of booleans
    of that length, the hexadecimal text the list branch of [set_relay]
    writes after [relay writeall] reads back in base 16, as [get_relay]
    reads it, to an integer whose bits [get_relay] unpacks to the
    sequence (1 for true, 0 for false, which Python holds equal): a
    reply whose second item between carriage returns is that text, line
    feeds around it or not, makes [get_relay] return the sequence. *)
Theorem relay_roundtrip (db : unicode_db) (n : Z) (seq : list bool) :
  In n [4; 8; 16; 32] ->
  len seq = n ->
  exists h v,
    relay_text n (PyList (map PyBool seq)) = Some h
    /\ int_of_str db 16 h = Some v
    /\ unpack_relays n v = map Z.b2z seq
    /\ (forall name rxs lg,
         port_log (snd (set_relay (PyList (map PyBool seq))
                          (open_board n name rxs lg)))
         = lg ++ [EvWrite (lit "relay writeall " ++ h ++ [CR]); EvRead 100])
    /\ (forall name reply rxs lg text item,
         utf8_decode (firstn 100 reply) = Some text ->
         nth_error (split CR text) 1 = Some item ->
         strip [LF] item = h ->
         fst (get_relay db (open_board n name (reply :: rxs) lg))
         = Return (map Z.b2z seq)).
Proof.
  intros _ Hlen.
  destruct (relay_roundtrip_values db (map PyBool seq)) as (h & v & Ht & Hi & Hu).
  assert (L : len (map PyBool seq) = n)
    by (unfold len in *; rewrite length_map; exact Hlen).
  rewrite L in Ht, Hu. rewrite map_map in Hu. cbn [ne_zero] in Hu.
  exists h, v. repeat split; try assumption.
  - intros name rxs lg. apply set_relay_log. exact Ht.
  - intros name reply rxs lg text item Hd Hn Hs.
    rewrite (get_relay_reply db n name reply rxs lg text item Hd Hn).
    rewrite Hs, Hi, Hu. reflexivity.
Qed.

(** The theorem at the state [1,0,0,1] of a board of 4 relays, whose
    text is [9], and a reply that echoes the command before it. *)
Lemma relay_roundtrip_witness :
  In 4 [4; 8; 16; 32]
  /\ len [true; false; false; true] = 4
  /\ fst (get_relay ascii_db
            (open_board 4 (lit "COM6")
               [lit "relay readall" ++ [LF; CR] ++ lit "9" ++ [LF; CR]
                ++ lit ">"] []))
     = Return [1; 0; 0; 1].
Proof.
  split; [simpl; auto|]. split; [reflexivity|].
  destruct (relay_roundtrip ascii_db 4 [true; false; false; true])
    as (h & v & Ht & _ & _ & _ & Hg); [simpl; auto|reflexivity|].
  injection Ht as <-.
  apply (Hg (lit "COM6") _ [] []
           (lit "relay readall" ++ [LF; CR] ++ lit "9" ++ [LF; CR] ++ lit ">")
           (lit "9" ++ [LF])); reflexivity.
Defined.

(** ** The two filters of the name *)

Lemma filter_twice {A} (f g : A -> bool) (l : list A) :
  filter g (filter f l) = filter (fun x => f x && g x) l.
Proof.
  induction l as [|a l IH]; [reflexivity|].
  cbn [filter]. destruct (f a); cbn [filter andb]; rewrite IH; reflexivity.
Qed.

(** C5 (as amended): on a name without the letter [z] the two filters
    keep the ASCII letters and digits and nothing else, a letter or
    digit outside ASCII being dropped by the range filter; so on a name
    that has no [z] and no letter or digit outside ASCII the range filter
    changes nothing: the name written is the one the alphanumeric filter
    alone gives. *)
Theorem normalize_name_refines (db : unicode_db) (name : pystr) :
  ~ In 122 name ->
  normalize_name db name = normalize_ascii_alnum name
  /\ ((forall x, In x name -> is_ascii x = false -> db_isalnum db x = false) ->
      normalize_name db name = normalize_alnum_only db name).
Proof.
  intros Hz. unfold normalize_name, normalize_ascii_alnum, normalize_alnum_only.
  rewrite filter_twice. split.
  - do 2 f_equal. apply filter_ext_in. intros x Hx.
    assert (x <> 122) by (intros ->; exact (Hz Hx)).
    unfold isalnum. destruct (is_ascii x) eqn:Ea.
    + unfold_chars. bool_lia.
    + replace ((48 <=? x) && (x <=? 121)) with false
        by (unfold_chars; bool_lia).
      unfold_chars. bool_lia.
  - intros Hdb. do 2 f_equal. apply filter_ext_in. intros x Hx.
    assert (x <> 122) by (intros ->; exact (Hz Hx)).
    unfold isalnum. specialize (Hdb x Hx).
    destruct (is_ascii x) eqn:Ea.
    + unfold_chars. bool_lia.
    + rewrite (Hdb eq_refl). apply andb_false_r.
Qed.

(** The theorem at the name ["Relay-7y"]. *)
Lemma normalize_name_refines_witness :
  ~ In 122 (lit "Relay-7y")
  /\ normalize_name sample_db (lit "Relay-7y")
     = normalize_ascii_alnum (lit "Relay-7y")
  /\ normalize_name sample_db (lit "Relay-7y")
     = normalize_alnum_only sample_db (lit "Relay-7y").
Proof.
  assert (Hz : ~ In 122 (lit "Relay-7y")).
  { cbn. intros H. repeat (destruct H as [H|H]; [discriminate H|]). exact H. }
  split; [exact Hz|].
  destruct (normalize_name_refines sample_db (lit "Relay-7y") Hz) as [H1 H2].
  split; [exact H1|]. apply H2.
  intros x Hx. cbn in Hx.
  repeat (destruct Hx as [<-|Hx]; [discriminate|]). destruct Hx.
Defined.

(** C5 (as stated) fails: the range filter ends at [y], so the name
    ["z"] is written as eight zeros where the alphanumeric filter alone
    keeps the [z]; and it drops the letter U+00E9, which the
    alphanumeric filter alone keeps. *)
Lemma range_filter_not_redundant :
  normalize_name ascii_db (lit "z") = lit "00000000"
  /\ normalize_alnum_only ascii_db (lit "z") = lit "0000000z"
  /\ normalize_name sample_db [233] = lit "00000000"
  /\ normalize_alnum_only sample_db [233] = lit "0000000" ++ [233].
Proof. repeat split. Qed.

(** ** Draining the buffer *)

Lemma option_map_cons_nil {A} (a : A) (o : option (list A)) :
  option_map (cons a) o <> Some [].
Proof. destruct o; discriminate. Qed.

Lemma utf8_decode_nil (bs : pybytes) : utf8_decode bs = Some [] -> bs = [].
Proof.
  destruct bs as [|b0 r0]; [reflexivity|]. intros H. exfalso.
  cbn [utf8_decode] in H.
  destruct (in_range 0 127 b0);
    [exact (option_map_cons_nil _ _ H)|].
  destruct (in_range 194 223 b0).
  { destruct r0 as [|b1 r1]; [discriminate H|].
    destruct (continuation b1); [|discriminate H].
    exact (option_map_cons_nil _ _ H). }
  destruct (in_range 224 239 b0).
  { destruct r0 as [|b1 [|b2 r2]]; try discriminate H.
    match type of H with (if ?c then _ else _) = _ => destruct c end;
      [|discriminate H].
    exact (option_map_cons_nil _ _ H). }
  destruct (in_range 240 244 b0); [|discriminate H].
  destruct r0 as [|b1 [|b2 [|b3 r3]]]; try discriminate H.
  match type of H with (if ?c then _ else _) = _ => destruct c end;
    [|discriminate H].
  exact (option_map_cons_nil _ _ H).
Qed.

Lemma readable_text (chunk : pybytes) :
  readable chunk ->
  exists text,
    utf8_decode (firstn 50 chunk) = Some text /\ (len text =? 0) = false.
Proof.
  intros [Hne Hd]. destruct (utf8_decode (firstn 50 chunk)) as [text|] eqn:E;
    [|congruence].
  exists text. split; [reflexivity|].
  destruct text as [|c text]; [|reflexivity].
  apply utf8_decode_nil in E. destruct chunk; [congruence|discriminate E].
Qed.

(** One turn of the loop on a read that brings bytes. *)
Lemma clear_buffer_turn (fuel : nat) (retry_limit retry_count : Z)
    n name chunk rxs lg :
  readable chunk ->
  clear_buffer_loop (S fuel) retry_limit retry_count
    (open_board n name (chunk :: rxs) lg)
  = if retry_limit <? retry_count + 1 then
      (Return (Some false), open_board n name rxs (lg ++ [EvRead 50]))
    else
      clear_buffer_loop fuel retry_limit (retry_count + 1)
        (open_board n name rxs (lg ++ [EvRead 50])).
Proof.
  intros Hr. destruct (readable_text chunk Hr) as (text & Hd & Hl).
  cbn [clear_buffer_loop]. unfold bind at 1 2.
  rewrite device_read_open. cbn [hd tl].
  change (Z.to_nat 50) with 50%nat. unfold decode. rewrite Hd.
  cbn [or_raise ret]. rewrite Hl.
  destruct (retry_limit <? retry_count + 1); reflexivity.
Qed.

(** The turn on a read that brings nothing ends the loop. *)
Lemma clear_buffer_blank (fuel : nat) (retry_limit retry_count : Z)
    n name rxs lg :
  hd [] rxs = [] ->
  clear_buffer_loop (S fuel) retry_limit retry_count
    (open_board n name rxs lg)
  = (Return (Some true), open_board n name (tl rxs) (lg ++ [EvRead 50])).
Proof.
  intros Hh. cbn [clear_buffer_loop]. unfold bind at 1 2.
  rewrite device_read_open, Hh. reflexivity.
Qed.

Lemma repeat_snoc {A} (a : A) (m : nat) (l : list A) :
  (l ++ [a]) ++ repeat a m = l ++ repeat a (S m).
Proof. rewrite <- app_assoc. reflexivity. Qed.

Lemma clear_buffer_loop_success (retry_limit : Z) n name rest :
  hd [] rest = [] ->
  forall pre retry_count lg fuel,
  Forall readable pre ->
  pre = [] \/ retry_count + len pre <= retry_limit ->
  (length pre < fuel)%nat ->
  clear_buffer_loop fuel retry_limit retry_count
    (open_board n name (pre ++ rest) lg)
  = (Return (Some true),
     open_board n name (tl rest) (lg ++ repeat (EvRead 50) (S (length pre)))).
Proof.
  intros Hrest. induction pre as [|chunk pre IH];
    intros c lg fuel Hpre Hlim Hfuel.
  - destruct fuel as [|fuel]; [cbn in Hfuel; lia|].
    apply clear_buffer_blank. exact Hrest.
  - destruct fuel as [|fuel]; [cbn in Hfuel; lia|].
    inversion Hpre as [|? ? Hc Hp]; subst.
    destruct Hlim as [Hnil|Hlim]; [discriminate|].
    unfold len in Hlim. cbn [length] in Hlim.
    cbn [app]. rewrite (clear_buffer_turn _ _ _ _ _ _ _ _ Hc).
    replace (retry_limit <? c + 1) with false by (symmetry; bool_lia).
    rewrite IH.
    + rewrite repeat_snoc. reflexivity.
    + exact Hp.
    + right. unfold len. lia.
    + cbn [length] in Hfuel. lia.
Qed.

Lemma clear_buffer_loop_failure (retry_limit : Z) n name rest :
  forall pre retry_count lg fuel,
  Forall readable pre ->
  pre <> [] ->
  length pre = 1%nat \/ retry_count + len pre - 1 <= retry_limit ->
  retry_limit < retry_count + len pre ->
  (length pre <= fuel)%nat ->
  clear_buffer_loop fuel retry_limit retry_count
    (open_board n name (pre ++ rest) lg)
  = (Return (Some false),
     open_board n name rest (lg ++ repeat (EvRead 50) (length pre))).
Proof.
  induction pre as [|chunk pre IH];
    intros c lg fuel Hpre Hne Hlow Hhigh Hfuel; [congruence|].
  destruct fuel as [|fuel]; [cbn in Hfuel; lia|].
  inversion Hpre as [|? ? Hc Hp]; subst.
  unfold len in Hlow, Hhigh. cbn [length] in Hlow, Hhigh, Hfuel.
  cbn [app]. rewrite (clear_buffer_turn _ _ _ _ _ _ _ _ Hc).
  destruct pre as [|chunk' pre]; cbn [length] in Hlow, Hhigh, Hfuel.
  - replace (retry_limit <? c + 1) with true by (symmetry; bool_lia).
    reflexivity.
  -
    replace (retry_limit <? c + 1) with false by (symmetry; bool_lia).
    rewrite IH.
    + rewrite repeat_snoc. reflexivity.
    + exact Hp.
    + discriminate.
    + right. unfold len. cbn [length]. lia.
    + unfold len. cbn [length]. lia.
    + cbn [length]. lia.
Qed.

(** X20: while the reads bring bytes that decode,
    [clear_buffer] returns true at the first read that brings nothing,
    when it is among the first [max 1 (retry_limit + 1)] reads, and
    false after exactly [max 1 (retry_limit + 1)] reads that brought
    bytes; it reads no further in either case, and the fuel of the loop
    is enough once it covers these reads. *)
Theorem clear_buffer_reads (retry_limit : Z) (n : Z) (name : pystr)
    (pre rest : list pybytes) (lg : list io_event) (fuel : nat) :
  Forall readable pre ->
  let turns := Z.to_nat (Z.max 1 (retry_limit + 1)) in
  ((length pre < turns)%nat -> hd [] rest = [] -> (length pre < fuel)%nat ->
   clear_buffer fuel retry_limit (open_board n name (pre ++ rest) lg)
   = (Return (Some true),
      open_board n name (tl rest)
        (lg ++ repeat (EvRead 50) (S (length pre)))))
  /\ (length pre = turns -> (turns <= fuel)%nat ->
      clear_buffer fuel retry_limit (open_board n name (pre ++ rest) lg)
      = (Return (Some false),
         open_board n name rest (lg ++ repeat (EvRead 50) turns))).
Proof.
  intros Hpre turns. subst turns. unfold clear_buffer. split.
  - intros Hlt Hrest Hfuel.
    apply clear_buffer_loop_success; try assumption.
    destruct pre as [|chunk pre]; [left; reflexivity|right].
    unfold len. cbn [length] in *. lia.
  - intros Hlen Hfuel. rewrite <- Hlen in *.
    apply clear_buffer_loop_failure; try assumption.
    + intros ->. cbn [length] in Hlen. lia.
    + unfold len. destruct (Z.max_spec 1 (retry_limit + 1)) as [[? E]|[? E]];
        rewrite E in Hlen; [right; lia|left; exact Hlen].
    + unfold len. lia.
Qed.

(** The theorem at three reads that bring a byte each and a limit of 2. *)
Lemma clear_buffer_reads_witness :
  Forall readable [lit "a"; lit "b"; lit "c"]
  /\ clear_buffer 3 2
       (open_board 16 (lit "COM6")
          ([lit "a"; lit "b"; lit "c"] ++ [lit "d"]) [])
     = (Return (Some false),
        open_board 16 (lit "COM6") [lit "d"]
          ([] ++ repeat (EvRead 50) 3)).
Proof.
  assert (Hpre : Forall readable [lit "a"; lit "b"; lit "c"])
    by (repeat constructor; discriminate).
  split; [exact Hpre|].
  destruct (clear_buffer_reads 2 16 (lit "COM6")
              [lit "a"; lit "b"; lit "c"] [lit "d"] [] 3 Hpre) as [_ H].
  apply H; [reflexivity|]. apply le_n.
Defined.

(** C6: a read that brings bytes that are no UTF-8 is not counted as a
    read that brought bytes: [clear_buffer] decodes what it read before
    it looks at its length, and raises [UnicodeDecodeError] at such a
    read, whatever the limit, where it should return a boolean. With
    the limit 10 and a first read of the byte [ff] it raises at the first
    read: an empty second read does not make it return true, and eleven
    such reads do not make it return false after the eleventh, ten of
    them staying pending. *)
Theorem clear_buffer_raises_on_junk :
  (forall retry_limit fuel n name rxs lg,
     clear_buffer (S fuel) retry_limit (open_board n name ([255] :: rxs) lg)
     = (Raise UnicodeDecodeError,
        open_board n name rxs (lg ++ [EvRead 50])))
  /\ clear_buffer 11 10 (open_board 16 (lit "COM6") [[255]; []] [])
     = (Raise UnicodeDecodeError,
        open_board 16 (lit "COM6") [[]] [EvRead 50])
  /\ clear_buffer 11 10 (open_board 16 (lit "COM6") (repeat [255] 11) [])
     = (Raise UnicodeDecodeError,
        open_board 16 (lit "COM6") (repeat [255] 10) [EvRead 50]).
Proof.
  split; [|split; reflexivity].
  intros retry_limit fuel n name rxs lg.
  unfold clear_buffer. cbn [clear_buffer_loop]. unfold bind at 1 2.
  rewrite device_read_open. reflexivity.
Qed.

(** ** The integer of a reply *)

Lemma lstrip_space_chars (s : pystr) :
  forallb literal_char (lstrip_space s) = true ->
  forallb literal_char s = true.
Proof.
  induction s as [|c s IH]; [reflexivity|]. cbn [lstrip_space].
  destruct (int_space c) eqn:E; [|trivial].
  intros H. cbn [forallb]. rewrite (IH H).
  unfold literal_char. rewrite E. rewrite orb_true_r. reflexivity.
Qed.

Lemma skip_sign_chars (s : pystr) :
  forallb literal_char (snd (skip_sign s)) = true ->
  forallb literal_char s = true.
Proof.
  destruct s as [|c s]; [reflexivity|]. unfold skip_sign.
  destruct (Z.eqb_spec c 43) as [->|H43]; [intros H; cbn in *; exact H|].
  destruct (Z.eqb_spec c 45) as [->|H45]; [intros H; cbn in *; exact H|].
  trivial.
Qed.

Lemma skip_prefix_decimal (s : pystr) : skip_prefix 10 s = s.
Proof. destruct s as [|c0 [|c1 s]]; reflexivity. Qed.

Lemma decimal_digit_char (c : Z) :
  digit_value c < 10 -> ascii_digit c = true.
Proof. intros H. unfold_chars. bool_lia. Qed.

Lemma scan_digits_chars (s : pystr) :
  forall acc prev_us v rest,
  scan_digits 10 acc prev_us s = Some (v, rest) ->
  forallb literal_char rest = true ->
  forallb literal_char s = true.
Proof.
  induction s as [|c s IH]; intros acc p v rest H Hrest; [reflexivity|].
  cbn [scan_digits] in H. cbn [forallb].
  destruct (Z.eqb_spec c 95) as [->|H95].
  - destruct p; [discriminate|]. rewrite (IH _ _ _ _ H Hrest). reflexivity.
  - destruct (Z.ltb_spec (digit_value c) 10) as [Hd|Hd].
    + rewrite (IH _ _ _ _ H Hrest).
      unfold literal_char. rewrite (decimal_digit_char c Hd). reflexivity.
    + destruct p; [discriminate|]. injection H as _ <-. exact Hrest.
Qed.

Lemma int_space_literal (s : pystr) :
  forallb int_space s = true -> forallb literal_char s = true.
Proof.
  intros H. apply forallb_forall. intros c Hc.
  rewrite forallb_forall in H. unfold literal_char.
  rewrite (H c Hc). apply orb_true_r.
Qed.

(** A text that [int] reads in base 10 is made of digits, underscores,
    signs and white space. *)
Lemma parse_int_ascii_chars (s : pystr) (v : Z) :
  parse_int_ascii 10 s = Some v -> forallb literal_char s = true.
Proof.
  unfold parse_int_ascii. intros H.
  apply lstrip_space_chars, skip_sign_chars.
  destruct (skip_sign (lstrip_space s)) as [neg s1]. cbn [snd].
  rewrite skip_prefix_decimal in H.
  destruct s1 as [|c s1]; [discriminate|].
  destruct (digit_value c <? 10); [|discriminate].
  destruct (scan_digits 10 0 false (c :: s1)) as [[w rest]|] eqn:E;
    [|discriminate].
  destruct (forallb int_space rest) eqn:R; [|discriminate].
  exact (scan_digits_chars _ _ _ _ _ E (int_space_literal _ R)).
Qed.

(** An ASCII text with any other character is no integer for [int]. *)
Lemma int_of_str_not_literal (db : unicode_db) (s : pystr) (c : Z) :
  forallb is_ascii s = true -> In c s -> literal_char c = false ->
  int_of_str db 10 s = None.
Proof.
  intros Ha Hc Hl. unfold int_of_str, int_text. rewrite Ha.
  destruct (parse_int_ascii 10 s) as [v|] eqn:E; [|reflexivity].
  apply parse_int_ascii_chars in E. rewrite forallb_forall in E.
  rewrite (E c Hc) in Hl. discriminate.
Qed.

Lemma get_adc_reply (db : unicode_db) (port raw : pyval) (p n : Z)
    (name : pystr) (reply : pybytes) (rxs : list pybytes)
    (lg : list io_event) (text item : pystr) :
  int_of db port = Return p -> 0 <= p < 5 ->
  utf8_decode (firstn 50 reply) = Some text ->
  nth_error (split CR text) 1 = Some item ->
  fst (get_adc db port raw (open_board n name (reply :: rxs) lg))
  = match int_of_str db 10 (strip [LF] item) with
    | Some v => Return (if truthy raw then AdcRaw v else AdcVolts v)
    | None => Raise ValueError
    end.
Proof.
  intros Hi Hp Hd Hn. unfold get_adc.
  rewrite (port_checked db port p 5 _ _ _ Hi Hp).
  rewrite (exchange_reply _ 50 _ n name reply rxs lg text); [| |exact Hd].
  - unfold bind, index. rewrite Hn. cbn [or_raise ret].
    destruct (int_of_str db 10 (strip [LF] item)); cbn [or_raise ret raise];
      [|reflexivity].
    destruct (truthy raw); reflexivity.
  - apply forallb_app_true; [reflexivity|].
    apply forallb_app_true; [apply str_of_int_ascii|reflexivity].
Qed.

Lemma read_gpio_reply (db : unicode_db) (port : pyval) (p n : Z)
    (name : pystr) (reply : pybytes) (rxs : list pybytes)
    (lg : list io_event) (text item : pystr) :
  int_of db port = Return p -> 0 <= p < 10 ->
  utf8_decode (firstn 100 reply) = Some text ->
  nth_error (split LF text) 2 = Some item ->
  fst (read_gpio db port (open_board n name (reply :: rxs) lg))
  = match int_of_str db 10 (strip [CR] item) with
    | Some v => Return (negb (v =? 0))
    | None => Raise ValueError
    end.
Proof.
  intros Hi Hp Hd Hn. unfold read_gpio.
  rewrite (port_checked db port p 10 _ _ _ Hi Hp).
  rewrite (exchange_reply _ 100 _ n name reply rxs lg text); [| |exact Hd].
  - unfold bind, index. rewrite Hn. cbn [or_raise ret].
    destruct (int_of_str db 10 (strip [CR] item)); reflexivity.
  - apply forallb_app_true; [reflexivity|].
    apply forallb_app_true; [apply str_of_int_ascii|reflexivity].
Qed.

(** C7 (as amended): [get_adc] reads the second item of the reply
    between carriage returns, without its line feeds, as an integer in
    base 10. It raises [ValueError] when the item is no integer, as an
    ASCII item with a character that is no digit, underscore, sign or
    white space is; and it returns every integer read, raw or as the
    voltage of it, whether it lies in 0..1023 or not: there is no check
    of the range. *)
Theorem get_adc_reads_any_integer (db : unicode_db) (port raw : pyval)
    (p n : Z) (name : pystr) (reply : pybytes) (rxs : list pybytes)
    (lg : list io_event) (text item : pystr) :
  int_of db port = Return p -> 0 <= p < 5 ->
  utf8_decode (firstn 50 reply) = Some text ->
  nth_error (split CR text) 1 = Some item ->
  let token := strip [LF] item in
  let out := fst (get_adc db port raw (open_board n name (reply :: rxs) lg)) in
  (int_of_str db 10 token = None -> out = Raise ValueError)
  /\ (forall c, forallb is_ascii token = true -> In c token ->
                literal_char c = false -> out = Raise ValueError)
  /\ (forall v, int_of_str db 10 token = Some v ->
                out = Return (if truthy raw then AdcRaw v else AdcVolts v))
  /\ (forall v, token = str_of_int v ->
                out = Return (if truthy raw then AdcRaw v else AdcVolts v)).
Proof.
  intros Hi Hp Hd Hn token out. subst token out.
  rewrite (get_adc_reply db port raw p n name reply rxs lg text item Hi Hp Hd Hn).
  repeat split.
  - intros ->. reflexivity.
  - intros c Ha Hc Hl. rewrite (int_of_str_not_literal db _ c Ha Hc Hl).
    reflexivity.
  - intros v ->. reflexivity.
  - intros v ->. rewrite int_of_str_str_of_int. reflexivity.
Qed.

(** The theorem at a reply that carries 5000. *)
Lemma get_adc_reads_any_integer_witness :
  int_of ascii_db (PyInt 0) = Return 0 /\ 0 <= 0 < 5
  /\ fst (get_adc ascii_db (PyInt 0) (PyBool true)
            (open_board 16 (lit "COM6")
               [lit "adc read 0" ++ [LF; CR] ++ lit "5000" ++ [LF; CR]
                ++ lit ">"] []))
     = Return (AdcRaw 5000).
Proof.
  split; [reflexivity|]. split; [lia|].
  refine (proj2 (proj2 (proj2
    (get_adc_reads_any_integer ascii_db (PyInt 0) (PyBool true) 0 16
       (lit "COM6")
       (lit "adc read 0" ++ [LF; CR] ++ lit "5000" ++ [LF; CR] ++ lit ">")
       [] []
       (lit "adc read 0" ++ [LF; CR] ++ lit "5000" ++ [LF; CR] ++ lit ">")
       (lit "5000" ++ [LF]) eq_refl _ eq_refl eq_refl))) 5000 eq_refl).
  lia.
Defined.

(** C7 (as stated) fails: the replies that carry 5000 and -7 make
    [get_adc] return 5000 and -7, which lie outside 0..1023. *)
Lemma get_adc_out_of_range :
  fst (get_adc ascii_db (PyInt 0) (PyBool true)
         (open_board 16 (lit "COM6")
            [lit "adc read 0" ++ [LF; CR] ++ lit "5000" ++ [LF; CR]
             ++ lit ">"] []))
  = Return (AdcRaw 5000)
  /\ fst (get_adc ascii_db (PyInt 0) (PyBool true)
            (open_board 16 (lit "COM6")
               [lit "adc read 0" ++ [LF; CR] ++ lit "-7" ++ [LF; CR]
                ++ lit ">"] []))
     = Return (AdcRaw (-7)).
Proof. split; reflexivity. Qed.

(** C8 (as amended): [read_gpio] reads the third line of the reply,
    without its carriage returns, as an integer in base 10. It raises
    [ValueError] when the line is no integer, as an ASCII line with a
    character that is no digit, underscore, sign or white space is; it
    returns false for the integer 0 and true for every other integer,
    not for 1 alone. *)
Theorem read_gpio_reads_any_integer (db : unicode_db) (port : pyval)
    (p n : Z) (name : pystr) (reply : pybytes) (rxs : list pybytes)
    (lg : list io_event) (text item : pystr) :
  int_of db port = Return p -> 0 <= p < 10 ->
  utf8_decode (firstn 100 reply) = Some text ->
  nth_error (split LF text) 2 = Some item ->
  let token := strip [CR] item in
  let out := fst (read_gpio db port (open_board n name (reply :: rxs) lg)) in
  (int_of_str db 10 token = None -> out = Raise ValueError)
  /\ (forall c, forallb is_ascii token = true -> In c token ->
                literal_char c = false -> out = Raise ValueError)
  /\ (int_of_str db 10 token = Some 0 -> out = Return false)
  /\ (forall v, v <> 0 -> int_of_str db 10 token = Some v ->
                out = Return true)
  /\ (forall v, token = str_of_int v -> out = Return (negb (v =? 0))).
Proof.
  intros Hi Hp Hd Hn token out. subst token out.
  rewrite (read_gpio_reply db port p n name reply rxs lg text item Hi Hp Hd Hn).
  repeat split.
  - intros ->. reflexivity.
  - intros c Ha Hc Hl. rewrite (int_of_str_not_literal db _ c Ha Hc Hl).
    reflexivity.
  - intros ->. reflexivity.
  - intros v Hv ->. apply Z.eqb_neq in Hv. rewrite Hv. reflexivity.
  - intros v ->. rewrite int_of_str_str_of_int. reflexivity.
Qed.

(** The theorem at a reply that carries 2. *)
Lemma read_gpio_reads_any_integer_witness :
  int_of ascii_db (PyInt 0) = Return 0 /\ 0 <= 0 < 10
  /\ fst (read_gpio ascii_db (PyInt 0)
            (open_board 16 (lit "COM6")
               [lit "gpio read 0" ++ [LF; CR; LF; CR] ++ lit "2"
                ++ [LF; CR] ++ lit ">"] []))
     = Return true.
Proof.
  split; [reflexivity|]. split; [lia|].
  refine (proj1 (proj2 (proj2 (proj2
    (read_gpio_reads_any_integer ascii_db (PyInt 0) 0 16 (lit "COM6")
       (lit "gpio read 0" ++ [LF; CR; LF; CR] ++ lit "2" ++ [LF; CR]
        ++ lit ">")
       [] []
       (lit "gpio read 0" ++ [LF; CR; LF; CR] ++ lit "2" ++ [LF; CR]
        ++ lit ">")
       ([CR] ++ lit "2") eq_refl _ eq_refl eq_refl)))) 2 _ eq_refl);
    [lia|discriminate].
Defined.

(** C8 (as stated) fails: the replies that carry 2 and -1 make
    [read_gpio] return true, where any integer other than 0 and 1 was to
    be a failure. *)
Lemma read_gpio_other_integer :
  fst (read_gpio ascii_db (PyInt 0)
         (open_board 16 (lit "COM6")
            [lit "gpio read 0" ++ [LF; CR; LF; CR] ++ lit "2" ++ [LF; CR]
             ++ lit ">"] []))
  = Return true
  /\ fst (read_gpio ascii_db (PyInt 0)
            (open_board 16 (lit "COM6")
               [lit "gpio read 0" ++ [LF; CR; LF; CR] ++ lit "-1"
                ++ [LF; CR] ++ lit ">"] []))
     = Return true.
Proof. split; reflexivity. Qed.

(** ** The name written by [set_device_name] *)

Lemma name_filters (db : unicode_db) (name : pystr) :
  filter (isalnum db) (filter (fun x => (48 <=? x) && (x <=? 121)) name)
  = filter name_char name.
Proof.
  rewrite filter_twice. apply filter_ext. intros x.
  unfold isalnum, name_char. destruct (is_ascii x) eqn:Ea.
  - unfold_chars. bool_lia.
  - replace ((48 <=? x) && (x <=? 121)) with false
      by (unfold_chars; bool_lia).
    unfold_chars. bool_lia.
Qed.

Lemma name_char_facts (x : Z) :
  name_char x = true ->
  (48 <=? x) && (x <=? 121) = true /\ is_ascii x = true
  /\ ascii_alnum x = true /\ x <> 43 /\ x <> 45.
Proof. unfold name_char. unfold_chars. bool_lia; repeat split; bool_lia. Qed.

Lemma zeros_length (k : Z) : length (zeros k) = Z.to_nat k.
Proof. unfold zeros. apply repeat_length. Qed.

Lemma zeros_name_chars (k : Z) : forallb name_char (zeros k) = true.
Proof.
  unfold zeros. apply forallb_forall. intros c Hc.
  apply repeat_spec in Hc. subst c. reflexivity.
Qed.

Lemma filter_kept {A} (f : A -> bool) (l : list A) :
  forallb f (filter f l) = true.
Proof. apply forallb_forall. intros x Hx. apply filter_In in Hx. apply Hx. Qed.

Lemma filter_all {A} (f : A -> bool) (l : list A) :
  forallb f l = true -> filter f l = l.
Proof.
  induction l as [|a l IH]; [reflexivity|]. cbn [forallb filter].
  intros H. apply andb_true_iff in H as [Ha Hl].
  rewrite Ha, (IH Hl). reflexivity.
Qed.

Lemma normalize_name_padded (db : unicode_db) (name : pystr) :
  normalize_name db name = slice_to 8 (zfill 8 (filter name_char name)).
Proof. unfold normalize_name. rewrite name_filters. reflexivity. Qed.

(** The padding and the cut, on letters and digits. *)
Lemma padded_name (kept : pystr) :
  forallb name_char kept = true ->
  slice_to 8 (zfill 8 kept)
  = if 8 <=? len kept then firstn 8 kept
    else zeros (8 - len kept) ++ kept.
Proof.
  intros K. unfold slice_to, zfill.
  destruct (Z.leb_spec 8 (len kept)) as [H|H]; [reflexivity|].
  assert (L : length (zeros (8 - len kept) ++ kept) = 8%nat).
  { rewrite length_app, zeros_length. unfold len in *. lia. }
  destruct kept as [|c k]; [reflexivity|].
  cbn [forallb] in K. apply andb_true_iff in K as [Hc _].
  destruct (name_char_facts c Hc) as (_ & _ & _ & Hp & Hm).
  apply Z.eqb_neq in Hp, Hm. rewrite Hp, Hm. cbn [orb].
  rewrite <- L. apply firstn_all.
Qed.

Lemma padded_name_wellformed (kept : pystr) :
  forallb name_char kept = true ->
  length (slice_to 8 (zfill 8 kept)) = 8%nat
  /\ forallb name_char (slice_to 8 (zfill 8 kept)) = true.
Proof.
  intros K. rewrite (padded_name kept K).
  destruct (Z.leb_spec 8 (len kept)) as [H|H].
  - split.
    + apply firstn_length_le. unfold len in H. lia.
    + apply forallb_firstn. exact K.
  - split.
    + rewrite length_app, zeros_length. unfold len in *. lia.
    + apply forallb_app_true; [apply zeros_name_chars|exact K].
Qed.

(** X1: the name [set_device_name] writes is, for every input, the
    ASCII letters and digits of the input other than [z], in their
    order: the first 8 of them when there are 8 or more, and all of them
    after the zeros that fill 8 places when there are fewer. *)
Theorem normalize_name_shape (db : unicode_db) (name : pystr) :
  let kept := filter name_char name in
  normalize_name db name
  = if 8 <=? len kept then firstn 8 kept
    else zeros (8 - len kept) ++ kept.
Proof.
  intros kept. rewrite normalize_name_padded.
  apply padded_name, filter_kept.
Qed.

(** X2: the name written has exactly 8 characters, each an ASCII letter
    or digit other than [z], whatever the input. *)
Theorem normalize_name_wellformed (db : unicode_db) (name : pystr) :
  length (normalize_name db name) = 8%nat
  /\ forallb name_char (normalize_name db name) = true.
Proof.
  rewrite normalize_name_padded.
  apply padded_name_wellformed, filter_kept.
Qed.

(** X3: normalizing a name that is already normalized changes nothing:
    a name read back from the device and set again is written as it
    is. *)
Theorem normalize_name_idempotent (db : unicode_db) (name : pystr) :
  normalize_name db (normalize_name db name) = normalize_name db name.
Proof.
  rewrite (normalize_name_padded db name).
  destruct (padded_name_wellformed _ (filter_kept name_char name)) as [L K].
  set (s := slice_to 8 (zfill 8 (filter name_char name))) in *.
  rewrite normalize_name_padded, (filter_all _ _ K), (padded_name _ K).
  unfold len. rewrite L.
  cbn [Z.of_nat Z.leb Z.compare Pos.compare Pos.compare_cont].
  rewrite <- L. apply firstn_all.
Qed.

(** ** The items of a reply *)

Lemma split_length (sep : Z) (s : pystr) :
  length (split sep s) = S (occurrences sep s).
Proof.
  unfold occurrences. induction s as [|c s IH]; [reflexivity|].
  cbn [split count_occ].
  destruct (Z.eqb_spec c sep) as [->|Hne].
  - destruct (Z.eq_dec sep sep) as [_|N]; [|congruence].
    cbn [length]. rewrite IH. reflexivity.
  - destruct (Z.eq_dec c sep) as [E|_]; [congruence|].
    destruct (split sep s) as [|w ws]; [discriminate IH|exact IH].
Qed.

(** The item [i] of a split exists iff the separator occurs [i] times
    at least. *)
Lemma split_index_none (sep : Z) (s : pystr) (i : nat) :
  (occurrences sep s < i)%nat -> nth_error (split sep s) i = None.
Proof.
  intros H. apply nth_error_None. rewrite split_length. lia.
Qed.

Lemma occurrences_none (sep : Z) (s : pystr) :
  ~ In sep s -> occurrences sep s = O.
Proof. intros H. unfold occurrences. apply count_occ_not_In. exact H. Qed.

Lemma split_before_sep (sep : Z) (a b : pystr) :
  ~ In sep a -> split sep (a ++ sep :: b) = a :: split sep b.
Proof.
  induction a as [|c a IH]; intros H.
  - cbn [app split]. rewrite Z.eqb_refl. reflexivity.
  - cbn [app split].
    destruct (Z.eqb_spec c sep) as [->|Hne]; [exfalso; apply H; left; reflexivity|].
    rewrite IH; [reflexivity|]. intros I. apply H. right. exact I.
Qed.

Lemma split_no_sep (sep : Z) (a : pystr) :
  ~ In sep a -> split sep a = [a].
Proof.
  induction a as [|c a IH]; intros H; [reflexivity|].
  cbn [split].
  destruct (Z.eqb_spec c sep) as [->|Hne]; [exfalso; apply H; left; reflexivity|].
  rewrite IH; [reflexivity|]. intros I. apply H. right. exact I.
Qed.

(** The second item of a text: what stands between its first separator
    and its second, or the end. *)
Lemma split_second (sep : Z) (echo item tail : pystr) :
  ~ In sep echo -> ~ In sep item ->
  tail = [] \/ (exists t, tail = sep :: t) ->
  nth_error (split sep (echo ++ sep :: item ++ tail)) 1 = Some item.
Proof.
  intros He Hi Ht. rewrite (split_before_sep sep echo _ He). cbn [nth_error].
  destruct Ht as [->|(t & ->)].
  - rewrite app_nil_r, (split_no_sep sep item Hi). reflexivity.
  - rewrite (split_before_sep sep item t Hi). reflexivity.
Qed.

Lemma lstrip_run (c : Z) (k : nat) (s : pystr) :
  lstrip [c] (repeat c k ++ s) = lstrip [c] s.
Proof.
  induction k as [|k IH]; [reflexivity|].
  cbn [repeat app lstrip mem existsb]. rewrite Z.eqb_refl. exact IH.
Qed.

Lemma lstrip_absent (c : Z) (s : pystr) : ~ In c s -> lstrip [c] s = s.
Proof.
  destruct s as [|x s]; [reflexivity|]. intros H.
  cbn [lstrip mem existsb].
  destruct (Z.eqb_spec x c) as [->|_]; [exfalso; apply H; left; reflexivity|].
  reflexivity.
Qed.

Lemma rev_repeat {A} (a : A) (k : nat) : rev (repeat a k) = repeat a k.
Proof.
  induction k as [|k IH]; [reflexivity|].
  cbn [repeat rev]. rewrite IH. symmetry. apply repeat_cons.
Qed.

(** Stripping a character from both ends of a text that has it only
    there. *)
Lemma strip_runs (c : Z) (j k : nat) (s : pystr) :
  ~ In c s -> strip [c] (repeat c j ++ s ++ repeat c k) = s.
Proof.
  intros H. unfold strip, rstrip. rewrite lstrip_run.
  destruct s as [|x s].
  - cbn [app]. rewrite <- (app_nil_r (repeat c k)), lstrip_run. reflexivity.
  - assert (L : lstrip [c] ((x :: s) ++ repeat c k) = (x :: s) ++ repeat c k).
    { cbn [app lstrip mem existsb].
      destruct (Z.eqb_spec x c) as [->|_]; [exfalso; apply H; left; reflexivity|].
      reflexivity. }
    rewrite L, rev_app_distr, rev_repeat, lstrip_run.
    rewrite lstrip_absent; [apply rev_involutive|].
    intros I. apply H. apply in_rev. exact I.
Qed.

(** One exchange on any pending reads, when the reply decodes. *)
Lemma exchange_any {A} (cmd : pystr) (size : Z) (k : pystr -> M A)
    (n : Z) (name : pystr) (rxs : list pybytes) (lg : list io_event)
    (text : pystr) :
  forallb is_ascii cmd = true ->
  utf8_decode (firstn (Z.to_nat size) (hd [] rxs)) = Some text ->
  (device_write cmd ;;;
   response <- device_read size ;;
   response <- decode response ;;
   k response) (open_board n name rxs lg)
  = k text (open_board n name (tl rxs) (lg ++ [EvWrite cmd; EvRead size])).
Proof.
  intros Hc Hd. unfold bind at 1 2 3.
  rewrite (device_write_open _ _ _ _ _ Hc), device_read_open.
  unfold decode. rewrite Hd. cbn [or_raise ret].
  rewrite <- app_assoc. reflexivity.
Qed.

Lemma adc_command_ascii (p : Z) :
  forallb is_ascii (lit "adc read " ++ str_of_int p ++ [CR]) = true.
Proof.
  apply forallb_app_true; [reflexivity|].
  apply forallb_app_true; [apply str_of_int_ascii|reflexivity].
Qed.

Lemma gpio_read_command_ascii (p : Z) :
  forallb is_ascii (lit "gpio read " ++ str_of_int p ++ [LF; CR]) = true.
Proof.
  apply forallb_app_true; [reflexivity|].
  apply forallb_app_true; [apply str_of_int_ascii|reflexivity].
Qed.

(** X4: a reply without a carriage return, as the empty reply of a read
    that timed out is, makes [get_device_name], [get_relay] and [get_adc]
    raise [IndexError]; the command was written and the read made. *)
Theorem reply_without_cr (db : unicode_db) (n : Z) (name : pystr)
    (rxs : list pybytes) (lg : list io_event) :
  (forall text,
     utf8_decode (firstn 100 (hd [] rxs)) = Some text -> ~ In CR text ->
     get_device_name (open_board n name rxs lg)
     = (Raise IndexError,
        open_board n name (tl rxs)
          (lg ++ [EvWrite (lit "id get" ++ [CR]); EvRead 100]))
     /\ get_relay db (open_board n name rxs lg)
        = (Raise IndexError,
           open_board n name (tl rxs)
             (lg ++ [EvWrite (lit "relay readall" ++ [CR]); EvRead 100])))
  /\ (forall text port raw p,
       utf8_decode (firstn 50 (hd [] rxs)) = Some text -> ~ In CR text ->
       int_of db port = Return p -> 0 <= p < 5 ->
       get_adc db port raw (open_board n name rxs lg)
       = (Raise IndexError,
          open_board n name (tl rxs)
            (lg ++ [EvWrite (lit "adc read " ++ str_of_int p ++ [CR]);
                    EvRead 50]))).
Proof.
  assert (N : forall text, ~ In CR text -> nth_error (split CR text) 1 = None).
  { intros text Hcr. apply split_index_none.
    rewrite (occurrences_none _ _ Hcr). lia. }
  split.
  - intros text Hd Hcr. split.
    + unfold get_device_name.
      rewrite (exchange_any _ 100 _ n name rxs lg text); [|reflexivity|exact Hd].
      unfold bind, index. rewrite (N text Hcr). reflexivity.
    + unfold get_relay.
      rewrite (exchange_any _ 100 _ n name rxs lg text); [|reflexivity|exact Hd].
      unfold bind, index. rewrite (N text Hcr). reflexivity.
  - intros text port raw p Hd Hcr Hi Hp. unfold get_adc.
    rewrite (port_checked db port p 5 _ _ _ Hi Hp).
    rewrite (exchange_any _ 50 _ n name rxs lg text);
      [|apply adc_command_ascii|exact Hd].
    unfold bind, index. rewrite (N text Hcr). reflexivity.
Qed.

(** The theorem at a read that times out. *)
Lemma reply_without_cr_witness :
  get_device_name (open_board 16 (lit "COM6") [] [])
  = (Raise IndexError,
     open_board 16 (lit "COM6") []
       ([] ++ [EvWrite (lit "id get" ++ [CR]); EvRead 100])).
Proof.
  refine (proj1 (proj1 (reply_without_cr ascii_db 16 (lit "COM6") [] [])
                   [] eq_refl _)).
  intros H. exact H.
Defined.

(** X5: a reply with fewer than two line feeds, as the empty reply of a
    read that timed out is, makes [read_gpio] raise [IndexError]. *)
Theorem read_gpio_short_reply (db : unicode_db) (n : Z) (name : pystr)
    (rxs : list pybytes) (lg : list io_event) (text : pystr)
    (port : pyval) (p : Z) :
  int_of db port = Return p -> 0 <= p < 10 ->
  utf8_decode (firstn 100 (hd [] rxs)) = Some text ->
  (occurrences LF text < 2)%nat ->
  read_gpio db port (open_board n name rxs lg)
  = (Raise IndexError,
     open_board n name (tl rxs)
       (lg ++ [EvWrite (lit "gpio read " ++ str_of_int p ++ [LF; CR]);
               EvRead 100])).
Proof.
  intros Hi Hp Hd Hlf. unfold read_gpio.
  rewrite (port_checked db port p 10 _ _ _ Hi Hp).
  rewrite (exchange_any _ 100 _ n name rxs lg text);
    [|apply gpio_read_command_ascii|exact Hd].
  unfold bind, index. rewrite (split_index_none LF text 2 Hlf). reflexivity.
Qed.

(** The theorem at a reply that is the echo of the command alone. *)
Lemma read_gpio_short_reply_witness :
  read_gpio ascii_db (PyInt 4)
    (open_board 16 (lit "COM6") [lit "gpio read 4" ++ [LF; CR]] [])
  = (Raise IndexError,
     open_board 16 (lit "COM6") []
       ([] ++ [EvWrite (lit "gpio read " ++ str_of_int 4 ++ [LF; CR]);
               EvRead 100])).
Proof.
  apply (read_gpio_short_reply ascii_db 16 (lit "COM6")
           [lit "gpio read 4" ++ [LF; CR]] []
           (lit "gpio read 4" ++ [LF; CR]) (PyInt 4) 4).
  - reflexivity.
  - lia.
  - reflexivity.
  - apply le_n.
Defined.

(** X6: [get_device_name] returns what stands between the first
    carriage return of the reply and the second, or the end of the
    reply, without the line feeds around it. *)
Theorem get_device_name_payload (n : Z) (name : pystr)
    (rxs : list pybytes) (lg : list io_event)
    (echo payload tail : pystr) (j k : nat) :
  utf8_decode (firstn 100 (hd [] rxs))
  = Some (echo ++ CR :: (repeat LF j ++ payload ++ repeat LF k) ++ tail) ->
  ~ In CR echo -> ~ In CR payload -> ~ In LF payload ->
  tail = [] \/ (exists t, tail = CR :: t) ->
  get_device_name (open_board n name rxs lg)
  = (Return payload,
     open_board n name (tl rxs)
       (lg ++ [EvWrite (lit "id get" ++ [CR]); EvRead 100])).
Proof.
  intros Hd He Hp Hl Ht. unfold get_device_name.
  rewrite (exchange_any _ 100 _ n name rxs lg
             (echo ++ CR :: (repeat LF j ++ payload ++ repeat LF k) ++ tail));
    [|reflexivity|exact Hd].
  unfold bind, index. rewrite split_second; [|exact He| |exact Ht].
  - cbn [or_raise ret]. rewrite (strip_runs LF j k payload Hl). reflexivity.
  - intros I. apply in_app_or in I as [I|I].
    + apply repeat_spec in I. discriminate I.
    + apply in_app_or in I as [I|I]; [exact (Hp I)|].
      apply repeat_spec in I. discriminate I.
Qed.

(** The theorem at a reply that echoes the command and carries the
    name [0000abc1]. *)
Lemma get_device_name_payload_witness :
  get_device_name
    (open_board 16 (lit "COM6")
       [lit "id get" ++ [LF; CR] ++ lit "0000abc1" ++ [LF; CR] ++ lit ">"] [])
  = (Return (lit "0000abc1"),
     open_board 16 (lit "COM6") []
       ([] ++ [EvWrite (lit "id get" ++ [CR]); EvRead 100])).
Proof.
  apply (get_device_name_payload 16 (lit "COM6")
           [lit "id get" ++ [LF; CR] ++ lit "0000abc1" ++ [LF; CR] ++ lit ">"]
           [] (lit "id get" ++ [LF]) (lit "0000abc1") (CR :: lit ">") 0 1).
  - reflexivity.
  - cbn. intros H. repeat (destruct H as [H|H]; [discriminate H|]). exact H.
  - cbn. intros H. repeat (destruct H as [H|H]; [discriminate H|]). exact H.
  - cbn. intros H. repeat (destruct H as [H|H]; [discriminate H|]). exact H.
  - right. exists (lit ">"). reflexivity.
Defined.

(** ** The state [get_relay] returns *)

Lemma range_length (n : Z) : length (range n) = Z.to_nat n.
Proof. unfold range. rewrite length_map, length_seq. reflexivity. Qed.

Lemma range_nth (n : Z) (i : nat) :
  (i < Z.to_nat n)%nat -> nth i (range n) 0 = Z.of_nat i.
Proof.
  intros H. unfold range.
  change 0 with (Z.of_nat 0). rewrite map_nth, seq_nth by exact H.
  reflexivity.
Qed.

Lemma nth_map_lt {A B} (f : A -> B) (l : list A) (d : B) (d' : A) :
  forall i, (i < length l)%nat -> nth i (map f l) d = f (nth i l d').
Proof.
  induction l as [|a l IH]; intros [|i] H; cbn in *; try lia.
  - reflexivity.
  - apply IH. lia.
Qed.

Lemma get_relay_parsed (db : unicode_db) (n : Z) (name : pystr)
    (rxs : list pybytes) (lg : list io_event) (text item : pystr) (v : Z) :
  utf8_decode (firstn 100 (hd [] rxs)) = Some text ->
  nth_error (split CR text) 1 = Some item ->
  int_of_str db 16 (strip [LF] item) = Some v ->
  get_relay db (open_board n name rxs lg)
  = (Return (unpack_relays n v),
     open_board n name (tl rxs)
       (lg ++ [EvWrite (lit "relay readall" ++ [CR]); EvRead 100])).
Proof.
  intros Hd Hn Hv. unfold get_relay.
  rewrite (exchange_any _ 100 _ n name rxs lg text); [|reflexivity|exact Hd].
  unfold bind, index. rewrite Hn. cbn [or_raise ret]. rewrite Hv.
  reflexivity.
Qed.

(** X7: what [get_relay] returns has one entry a relay of the board, and
    the entry of relay [i] is bit [i] of the integer read in base 16 from
    the reply, so 0 or 1, also when the reply carries more digits than
    the board has relays or a negative number. *)
Theorem get_relay_bits (db : unicode_db) (n : Z) (name : pystr)
    (rxs : list pybytes) (lg : list io_event) (text item : pystr) (v : Z) :
  utf8_decode (firstn 100 (hd [] rxs)) = Some text ->
  nth_error (split CR text) 1 = Some item ->
  int_of_str db 16 (strip [LF] item) = Some v ->
  exists state,
    get_relay db (open_board n name rxs lg)
    = (Return state,
       open_board n name (tl rxs)
         (lg ++ [EvWrite (lit "relay readall" ++ [CR]); EvRead 100]))
    /\ length state = Z.to_nat n
    /\ (forall i, (i < Z.to_nat n)%nat ->
          nth i state 0 = Z.b2z (Z.testbit v (Z.of_nat i)))
    /\ Forall (fun x => x = 0 \/ x = 1) state.
Proof.
  intros Hd Hn Hv. exists (unpack_relays n v). split; [|split; [|split]].
  - apply (get_relay_parsed db n name rxs lg text item v Hd Hn Hv).
  - unfold unpack_relays. rewrite length_map. apply range_length.
  - intros i Hi. rewrite unpack_relays_testbit.
    rewrite (nth_map_lt _ _ 0 0) by (rewrite range_length; exact Hi).
    rewrite (range_nth n i Hi). reflexivity.
  - rewrite unpack_relays_testbit. apply Forall_forall. intros x Hx.
    apply in_map_iff in Hx as (y & <- & _).
    destruct (Z.testbit v y); [right|left]; reflexivity.
Qed.

(** The theorem at a reply that carries [ffff] to a board of 4 relays. *)
Lemma get_relay_bits_witness :
  exists state,
    get_relay ascii_db
      (open_board 4 (lit "COM6")
         [lit "relay readall" ++ [LF; CR] ++ lit "ffff" ++ [LF; CR]
          ++ lit ">"] [])
    = (Return state,
       open_board 4 (lit "COM6") (tl [lit "relay readall" ++ [LF; CR]
                                       ++ lit "ffff" ++ [LF; CR] ++ lit ">"])
         ([] ++ [EvWrite (lit "relay readall" ++ [CR]); EvRead 100]))
    /\ length state = Z.to_nat 4
    /\ (forall i, (i < Z.to_nat 4)%nat ->
          nth i state 0 = Z.b2z (Z.testbit 65535 (Z.of_nat i)))
    /\ Forall (fun x => x = 0 \/ x = 1) state.
Proof.
  apply (get_relay_bits ascii_db 4 (lit "COM6")
           [lit "relay readall" ++ [LF; CR] ++ lit "ffff" ++ [LF; CR]
            ++ lit ">"] []
           (lit "relay readall" ++ [LF; CR] ++ lit "ffff" ++ [LF; CR]
            ++ lit ">")
           (lit "ffff" ++ [LF]) 65535); reflexivity.
Defined.

(** X8: the integer given to [set_relay], when it is not negative, is
    written whole, and a reply that carries the text written makes
    [get_relay] return its low bits, one a relay of the board: the bits
    above the relays of the board go to the device and are not read
    back. *)
Theorem relay_int_roundtrip (db : unicode_db) (n v : Z) :
  0 <= v ->
  exists h,
    relay_text n (PyInt v) = Some h
    /\ int_of_str db 16 h = Some v
    /\ (forall name rxs lg text item,
          utf8_decode (firstn 100 (hd [] rxs)) = Some text ->
          nth_error (split CR text) 1 = Some item ->
          strip [LF] item = h ->
          fst (get_relay db (open_board n name rxs lg))
          = Return (map (fun x => Z.b2z (Z.testbit v x)) (range n))).
Proof.
  intros Hv. exists (zfill (n / 4) (slice_from 2 (hex v))).
  destruct (relay_hex_text db n v Hv) as (_ & _ & Hr).
  split; [reflexivity|]. split; [exact Hr|].
  intros name rxs lg text item Hd Hn Hs.
  rewrite <- Hs in Hr.
  rewrite (get_relay_parsed db n name rxs lg text item v Hd Hn Hr).
  cbn [fst]. rewrite unpack_relays_testbit. reflexivity.
Qed.

(** The theorem at [0x1ff] on a board of 8 relays: nine bits go out and
    the low eight come back. *)
Lemma relay_int_roundtrip_witness :
  0 <= 511
  /\ fst (get_relay ascii_db
            (open_board 8 (lit "COM6")
               [lit "relay readall" ++ [LF; CR] ++ lit "1ff" ++ [LF; CR]
                ++ lit ">"] []))
     = Return [1; 1; 1; 1; 1; 1; 1; 1].
Proof.
  split; [lia|].
  destruct (relay_int_roundtrip ascii_db 8 511) as (h & Ht & _ & Hg); [lia|].
  injection Ht as <-.
  apply (Hg (lit "COM6") _ []
           (lit "relay readall" ++ [LF; CR] ++ lit "1ff" ++ [LF; CR] ++ lit ">")
           (lit "1ff" ++ [LF])); reflexivity.
Defined.

(** ** The two forms of the argument of [set_relay] *)

Lemma bits_value_bit (l : list pyval) :
  forall i, Z.testbit (bits_value l) (Z.of_nat i) = ne_zero (nth i l (PyInt 0)).
Proof.
  induction l as [|v l IH]; intros i.
  - cbn [bits_value]. rewrite Z.bits_0. destruct i; reflexivity.
  - cbn [bits_value]. rewrite Z.add_comm. destruct i as [|i].
    + change (Z.of_nat 0) with 0. rewrite Z.testbit_0_r. reflexivity.
    + rewrite Nat2Z.inj_succ, Z.testbit_succ_r by lia. cbn [nth]. apply IH.
Qed.

(** X9: a list given to [set_relay] does what the integer does whose
    bit [i] is set iff entry [i] of the list is not zero: the same
    command, the same result, on every board. *)
Theorem set_relay_list_as_int (l : list pyval) (b : RelayBoard) :
  set_relay (PyList l) b = set_relay (PyInt (bits_value l)) b
  /\ 0 <= bits_value l
  /\ (forall i, Z.testbit (bits_value l) (Z.of_nat i)
                = ne_zero (nth i l (PyInt 0))).
Proof.
  split; [|split; [apply bits_value_nonneg|apply bits_value_bit]].
  unfold set_relay, bind, assert.
  cbn [type_of pytype_eqb negb ret].
  rewrite relay_text_list. reflexivity.
Qed.

(** ** A negative integer *)

Lemma exchange_unread {A} (cmd : pystr) (size : Z) (a : A)
    (n : Z) (name : pystr) (rxs : list pybytes) (lg : list io_event) :
  forallb is_ascii cmd = true ->
  (device_write cmd ;;; device_read size ;;; ret a) (open_board n name rxs lg)
  = (Return a, open_board n name (tl rxs) (lg ++ [EvWrite cmd; EvRead size])).
Proof.
  intros Hc. unfold bind at 1 2.
  rewrite (device_write_open _ _ _ _ _ Hc), device_read_open.
  unfold ret. rewrite <- app_assoc. reflexivity.
Qed.

Lemma set_relay_sent (relay_vals : pyval) (t : pystr)
    (n : Z) (name : pystr) (rxs : list pybytes) (lg : list io_event) :
  relay_text n relay_vals = Some t ->
  set_relay relay_vals (open_board n name rxs lg)
  = (Return PyNone,
     open_board n name (tl rxs)
       (lg ++ [EvWrite (lit "relay writeall " ++ t ++ [CR]); EvRead 100])).
Proof.
  intros T. rewrite (set_relay_exchange _ _ _ _ _ _ T).
  apply exchange_unread, relay_command_ascii, (relay_text_ascii _ _ _ T).
Qed.

Lemma relay_text_negative (n v : Z) :
  v < 0 ->
  relay_text n (PyInt v)
  = Some (zeros (n / 4 - (1 + len (digits 16 (- v))))
          ++ 120 :: digits 16 (- v)).
Proof.
  intros Hv. cbn [relay_text]. f_equal.
  unfold hex, sign_prefix. destruct (Z.ltb_spec v 0) as [_|H]; [|lia].
  rewrite Z.abs_neq by lia.
  change (slice_from 2 ([45] ++ lit "0x" ++ digits 16 (- v)))
    with (120 :: digits 16 (- v)).
  unfold zfill.
  replace (len (120 :: digits 16 (- v))) with (1 + len (digits 16 (- v)))
    by (unfold len; cbn [length]; lia).
  destruct (Z.leb_spec (n / 4) (1 + len (digits 16 (- v)))) as [L|L].
  - unfold zeros.
    replace (Z.to_nat (n / 4 - (1 + len (digits 16 (- v))))) with O by lia.
    reflexivity.
  - reflexivity.
Qed.

(** X10: a negative integer given to [set_relay] is not refused. Its
    sign is lost and the [x] of [hex] stays in the text: the command
    carries an [x] before the hexadecimal digits of the absolute value,
    after the zeros that fill [number_of_relays / 4] places, and the call
    returns as any other. *)
Theorem set_relay_negative (n v : Z) (name : pystr) (rxs : list pybytes)
    (lg : list io_event) :
  v < 0 ->
  let h := zeros (n / 4 - (1 + len (digits 16 (- v))))
           ++ 120 :: digits 16 (- v) in
  set_relay (PyInt v) (open_board n name rxs lg)
  = (Return PyNone,
     open_board n name (tl rxs)
       (lg ++ [EvWrite (lit "relay writeall " ++ h ++ [CR]); EvRead 100]))
  /\ forallb lower_hex h = false.
Proof.
  intros Hv h. subst h. split.
  - apply set_relay_sent, relay_text_negative, Hv.
  - rewrite forallb_app. cbn [forallb].
    change (lower_hex 120) with false. cbn [andb]. apply andb_false_r.
Qed.

(** The theorem at [set_relay(-1)] on a board of 16 relays. *)
Lemma set_relay_negative_witness :
  set_relay (PyInt (-1)) (open_board 16 (lit "COM6") [] [])
  = (Return PyNone,
     open_board 16 (lit "COM6") []
       ([] ++ [EvWrite (lit "relay writeall " ++ lit "00x1" ++ [CR]);
               EvRead 100])).
Proof.
  apply (set_relay_negative 16 (-1) (lit "COM6") [] []). lia.
Defined.

(** ** [clear_buffer] on any reads *)

Lemma skipn_S_tl {A} (k : nat) (l : list A) : skipn (S k) l = skipn k (tl l).
Proof. destruct l; [destruct k|]; reflexivity. Qed.

Lemma nth_S_tl {A} (i : nat) (l : list A) (d : A) :
  nth (S i) l d = nth i (tl l) d.
Proof. destruct l; [destruct i|]; reflexivity. Qed.

Lemma hd_nth {A} (l : list A) (d : A) : hd d l = nth 0 l d.
Proof. destruct l; reflexivity. Qed.

(** One turn of the loop, on any read. *)
Lemma clear_buffer_step (fuel : nat) (retry_limit retry_count : Z)
    (n : Z) (name : pystr) (rxs : list pybytes) (lg : list io_event) :
  clear_buffer_loop (S fuel) retry_limit retry_count
    (open_board n name rxs lg)
  = match utf8_decode (firstn 50 (hd [] rxs)) with
    | None =>
        (Raise UnicodeDecodeError,
         open_board n name (tl rxs) (lg ++ [EvRead 50]))
    | Some text =>
        if len text =? 0 then
          (Return (Some true), open_board n name (tl rxs) (lg ++ [EvRead 50]))
        else if retry_limit <? retry_count + 1 then
          (Return (Some false), open_board n name (tl rxs) (lg ++ [EvRead 50]))
        else
          clear_buffer_loop fuel retry_limit (retry_count + 1)
            (open_board n name (tl rxs) (lg ++ [EvRead 50]))
    end.
Proof.
  cbn [clear_buffer_loop]. unfold bind at 1 2.
  rewrite device_read_open. change (Z.to_nat 50) with 50%nat.
  unfold decode.
  destruct (utf8_decode (firstn 50 (hd [] rxs))) as [text|];
    cbn [or_raise ret raise]; [|reflexivity].
  destruct (len text =? 0); [reflexivity|].
  destruct (retry_limit <? retry_count + 1); reflexivity.
Qed.

Lemma decoded_readable (chunk : pybytes) (text : pystr) :
  utf8_decode (firstn 50 chunk) = Some text -> (len text =? 0) = false ->
  readable chunk.
Proof.
  intros Hd Hl. split.
  - intros ->. cbn in Hd. injection Hd as <-. discriminate Hl.
  - rewrite Hd. discriminate.
Qed.

Lemma decoded_blank (chunk : pybytes) (text : pystr) :
  utf8_decode (firstn 50 chunk) = Some text -> (len text =? 0) = true ->
  chunk = [].
Proof.
  intros Hd Hl. destruct text as [|c text]; [|discriminate Hl].
  apply utf8_decode_nil in Hd. destruct chunk; [reflexivity|discriminate Hd].
Qed.

Lemma clear_buffer_loop_bounded (retry_limit : Z) (n : Z) (name : pystr) :
  forall fuel retry_count rxs lg,
  (Z.to_nat (Z.max 1 (retry_limit - retry_count + 1)) <= fuel)%nat ->
  exists k r,
    (1 <= k <= Z.to_nat (Z.max 1 (retry_limit - retry_count + 1)))%nat
    /\ clear_buffer_loop fuel retry_limit retry_count
         (open_board n name rxs lg)
       = (r, open_board n name (skipn k rxs)
               (lg ++ repeat (EvRead 50) k))
    /\ (forall i, (i < k - 1)%nat -> readable (nth i rxs []))
    /\ drained (Z.to_nat (Z.max 1 (retry_limit - retry_count + 1))) k rxs r.
Proof.
  induction fuel as [|fuel IH]; intros c rxs lg Hf; [lia|].
  rewrite clear_buffer_step.
  destruct (utf8_decode (firstn 50 (hd [] rxs))) as [text|] eqn:Hd.
  - destruct (len text =? 0) eqn:Hl.
    + exists 1%nat, (Return (Some true)). split; [lia|]. split.
      * rewrite skipn_S_tl. reflexivity.
      * split; [intros i Hi; lia|]. left. split; [reflexivity|].
        cbn [Nat.sub]. rewrite <- hd_nth.
        exact (decoded_blank _ _ Hd Hl).
    + assert (Hr : readable (hd [] rxs)) by exact (decoded_readable _ _ Hd Hl).
      destruct (Z.ltb_spec retry_limit (c + 1)) as [Hc|Hc].
      * exists 1%nat, (Return (Some false)). split; [lia|]. split.
        -- rewrite skipn_S_tl. reflexivity.
        -- split; [intros i Hi; lia|]. right. left.
           split; [reflexivity|]. split; [lia|].
           cbn [Nat.sub]. rewrite <- hd_nth. exact Hr.
      * destruct (IH (c + 1) (tl rxs) (lg ++ [EvRead 50]))
          as (k & r & Hk & Hrun & Hpre & Hend); [lia|].
        exists (S k), r. split; [lia|]. split.
        -- rewrite Hrun, skipn_S_tl, repeat_snoc. reflexivity.
        -- split.
           ++ intros i Hi. destruct i as [|i]; [rewrite <- hd_nth; exact Hr|].
              rewrite nth_S_tl. apply Hpre. lia.
           ++ assert (E : nth (S k - 1) rxs [] = nth (k - 1) (tl rxs) []).
              { destruct k as [|k]; [lia|].
                cbn [Nat.sub]. rewrite Nat.sub_0_r. apply nth_S_tl. }
              unfold drained. rewrite E.
              destruct Hend as [[-> H]|[(-> & H1 & H2)|[-> H]]].
              ** left. split; [reflexivity|exact H].
              ** right. left. split; [reflexivity|]. split; [lia|exact H2].
              ** right. right. split; [reflexivity|exact H].
  - exists 1%nat, (Raise UnicodeDecodeError). split; [lia|]. split.
    + rewrite skipn_S_tl. reflexivity.
    + split; [intros i Hi; lia|]. right. right. split; [reflexivity|].
      cbn [Nat.sub]. rewrite <- hd_nth. exact Hd.
Qed.

(** X11: whatever the reads bring, [clear_buffer] ends after [k] reads
    with [k] between 1 and [max 1 (retry_limit + 1)], once the fuel of
    the loop covers these: the reads before the last brought bytes that
    decode, and the last brought nothing (the result is true), or was
    read [max 1 (retry_limit + 1)] and brought bytes that decode (false),
    or brought bytes that are no UTF-8 ([UnicodeDecodeError]). Nothing
    is written and the reads after these stay pending. *)
Theorem clear_buffer_bounded (retry_limit n : Z) (name : pystr)
    (rxs : list pybytes) (lg : list io_event) (fuel : nat) :
  let turns := Z.to_nat (Z.max 1 (retry_limit + 1)) in
  (turns <= fuel)%nat ->
  exists k r,
    (1 <= k <= turns)%nat
    /\ clear_buffer fuel retry_limit (open_board n name rxs lg)
       = (r, open_board n name (skipn k rxs) (lg ++ repeat (EvRead 50) k))
    /\ (forall i, (i < k - 1)%nat -> readable (nth i rxs []))
    /\ drained turns k rxs r.
Proof.
  intros turns Hf. subst turns. unfold clear_buffer.
  replace (retry_limit + 1) with (retry_limit - 0 + 1) in * by lia.
  apply clear_buffer_loop_bounded. exact Hf.
Qed.

(** The theorem at the default limit of 10 and a second read that is no
    UTF-8. *)
Lemma clear_buffer_bounded_witness :
  exists k r,
    (1 <= k <= 11)%nat
    /\ clear_buffer 11 10 (open_board 16 (lit "COM6") [lit "a"; [255]] [])
       = (r, open_board 16 (lit "COM6") (skipn k [lit "a"; [255]])
               ([] ++ repeat (EvRead 50) k))
    /\ (forall i, (i < k - 1)%nat -> readable (nth i [lit "a"; [255]] []))
    /\ drained 11 k [lit "a"; [255]] r.
Proof.
  apply (clear_buffer_bounded 10 16 (lit "COM6") [lit "a"; [255]] [] 11).
  apply le_n.
Defined.

(** ** The reply to a command that sets *)

Lemma set_gpio_command_ascii (status : pyval) (p : Z) :
  forallb is_ascii
    (if truthy status then lit "gpio set " ++ str_of_int p ++ lit " " ++ [CR]
     else lit "gpio clear " ++ str_of_int p ++ lit " " ++ [CR]) = true.
Proof.
  destruct (truthy status);
    (apply forallb_app_true; [reflexivity|];
     apply forallb_app_true; [apply str_of_int_ascii|reflexivity]).
Qed.

(** X12: the methods that set something do not look at the reply. On
    an open port [set_device_name], [set_gpio] with a valid port and
    [set_relay] on an integer or a list return normally whatever the one
    read brings, nothing or bytes that are no UTF-8 included, and leave
    the later reads pending. *)
Theorem set_methods_ignore_reply (db : unicode_db) (n : Z) (name : pystr)
    (rxs : list pybytes) (lg : list io_event) :
  (forall nm,
     set_device_name db nm (open_board n name rxs lg)
     = (Return tt,
        open_board n name (tl rxs)
          (lg ++ [EvWrite (lit "id set " ++ normalize_name db nm ++ [CR]);
                  EvRead 100])))
  /\ (forall port status p,
        int_of db port = Return p -> 0 <= p < 10 ->
        set_gpio db port status (open_board n name rxs lg)
        = (Return tt,
           open_board n name (tl rxs)
             (lg ++ [EvWrite
                       (if truthy status
                        then lit "gpio set " ++ str_of_int p ++ lit " " ++ [CR]
                        else lit "gpio clear " ++ str_of_int p ++ lit " "
                             ++ [CR]);
                     EvRead 50])))
  /\ (forall relay_vals t,
        relay_text n relay_vals = Some t ->
        set_relay relay_vals (open_board n name rxs lg)
        = (Return PyNone,
           open_board n name (tl rxs)
             (lg ++ [EvWrite (lit "relay writeall " ++ t ++ [CR]);
                     EvRead 100]))).
Proof.
  split; [|split].
  - intros nm. unfold set_device_name. apply exchange_unread.
    apply forallb_app_true; [reflexivity|].
    apply forallb_app_true; [apply normalize_name_ascii|reflexivity].
  - intros port status p Hi Hp. unfold set_gpio.
    rewrite (port_checked db port p 10 _ _ _ Hi Hp).
    apply exchange_unread, set_gpio_command_ascii.
  - intros relay_vals t T. apply set_relay_sent, T.
Qed.

(** The theorem at [set_gpio('7', True)] and a reply that is no UTF-8. *)
Lemma set_methods_ignore_reply_witness :
  set_gpio ascii_db (PyStr (lit "7")) (PyBool true)
    (open_board 16 (lit "COM6") [[255]; lit "x"] [])
  = (Return tt,
     open_board 16 (lit "COM6") [lit "x"]
       ([] ++ [EvWrite (lit "gpio set " ++ str_of_int 7 ++ lit " " ++ [CR]);
               EvRead 50])).
Proof.
  refine (proj1 (proj2 (set_methods_ignore_reply ascii_db 16 (lit "COM6")
                          [[255]; lit "x"] []))
            (PyStr (lit "7")) (PyBool true) 7 _ _).
  - reflexivity.
  - lia.
Defined.

(** ** The check of the port *)

Lemma port_refused {A} (db : unicode_db) (port : pyval) (bound : Z)
    (msg : string) (k : Z -> M A) (b : RelayBoard) :
  (forall e, int_of db port = Raise e ->
     (port <- lift (int_of db port) ;;
      assert ((0 <=? port) && (port <? bound)) msg ;;; k port) b
     = (Raise e, b))
  /\ (forall p, int_of db port = Return p -> ~ (0 <= p < bound) ->
        (port <- lift (int_of db port) ;;
         assert ((0 <=? port) && (port <? bound)) msg ;;; k port) b
        = (Raise (AssertionError msg), b)).
Proof.
  split.
  - intros e Hi. unfold bind, lift. rewrite Hi. reflexivity.
  - intros p Hi Hp. unfold bind, lift. rewrite Hi.
    replace ((0 <=? p) && (p <? bound)) with false by (symmetry; bool_lia).
    reflexivity.
Qed.

(** X13: the port is checked before the device is touched. On every
    board, open or not, [read_gpio], [set_gpio] and [get_adc] raise the
    error of [int(port)] when the port is no integer, and an
    [AssertionError] when it is one outside 0..9, or outside 0..4 for
    [get_adc]; the board is left as it was, nothing written and nothing
    read. *)
Theorem invalid_port_refused (db : unicode_db) (b : RelayBoard)
    (port : pyval) :
  (forall e, int_of db port = Raise e ->
     read_gpio db port b = (Raise e, b)
     /\ (forall status, set_gpio db port status b = (Raise e, b))
     /\ (forall raw, get_adc db port raw b = (Raise e, b)))
  /\ (forall p, int_of db port = Return p -> ~ (0 <= p < 10) ->
        read_gpio db port b = (Raise (AssertionError "Invalid GPIO Port"), b)
        /\ (forall status,
              set_gpio db port status b
              = (Raise (AssertionError "Invalid GPIO Port"), b)))
  /\ (forall p, int_of db port = Return p -> ~ (0 <= p < 5) ->
        forall raw,
          get_adc db port raw b
          = (Raise (AssertionError "Invalid ADC Port"), b)).
Proof.
  split; [|split].
  - intros e Hi. split; [|split]; intros;
      unfold read_gpio, set_gpio, get_adc;
      apply (proj1 (port_refused db port _ _ _ b) e Hi).
  - intros p Hi Hp. split; intros;
      unfold read_gpio, set_gpio;
      apply (proj2 (port_refused db port 10 _ _ b) p Hi Hp).
  - intros p Hi Hp raw. unfold get_adc.
    apply (proj2 (port_refused db port 5 _ _ b) p Hi Hp).
Qed.

(** The theorem at [read_gpio(10)], the call the docstring of
    [read_gpio] gives as the bad one. *)
Lemma invalid_port_refused_witness :
  read_gpio ascii_db (PyInt 10) (open_board 16 (lit "COM6") [lit "1"] [])
  = (Raise (AssertionError "Invalid GPIO Port"),
     open_board 16 (lit "COM6") [lit "1"] []).
Proof.
  refine (proj1 (proj1 (proj2 (invalid_port_refused ascii_db
                                 (open_board 16 (lit "COM6") [lit "1"] [])
                                 (PyInt 10)))
                   10 eq_refl _)).
  lia.
Defined.

(** ** The width of the text of [set_relay] *)

Lemma digits_fuel_nonempty (fuel : nat) (base n : Z) :
  digits_fuel fuel base n <> [].
Proof.
  destruct fuel; cbn [digits_fuel]; [discriminate|].
  destruct (n <? base); [discriminate|].
  intros H. apply app_eq_nil in H as [_ H]. discriminate.
Qed.

Lemma pow_ge_base (base k : Z) : 2 <= base -> 1 <= k -> base <= base ^ k.
Proof.
  intros Hb Hk. rewrite <- (Z.pow_1_r base) at 1.
  apply Z.pow_le_mono_r; lia.
Qed.

(** [k] digits are enough for the numbers below [base ^ k], and for no
    other. *)
Lemma digits_fuel_length (base : Z) :
  2 <= base ->
  forall fuel n, 0 <= n < 2 ^ (Z.of_nat fuel + 1) ->
  forall k, 1 <= k ->
  (n < base ^ k <-> len (digits_fuel fuel base n) <= k).
Proof.
  intros Hb. induction fuel as [|fuel IH]; intros n Hn k Hk.
  - cbn [digits_fuel]. unfold len. cbn [length].
    change (2 ^ (Z.of_nat 0 + 1)) with 2 in Hn.
    pose proof (pow_ge_base base k Hb Hk). split; intros; lia.
  - cbn [digits_fuel]. destruct (Z.ltb_spec n base) as [Hlt|Hge].
    + unfold len. cbn [length].
      pose proof (pow_ge_base base k Hb Hk). split; intros; lia.
    + assert (Hrec : 0 <= n / base < 2 ^ (Z.of_nat fuel + 1)).
      { split; [apply Z.div_pos; lia|].
        apply Z.div_lt_upper_bound; [lia|].
        replace (Z.of_nat (S fuel) + 1) with (Z.succ (Z.of_nat fuel + 1))
          in Hn by lia.
        rewrite Z.pow_succ_r in Hn by lia.
        assert (0 < 2 ^ (Z.of_nat fuel + 1)) by (apply Z.pow_pos_nonneg; lia).
        nia. }
      assert (Hne : 1 <= len (digits_fuel fuel base (n / base))).
      { pose proof (digits_fuel_nonempty fuel base (n / base)) as N.
        unfold len. destruct (digits_fuel fuel base (n / base));
          [congruence|cbn [length]; lia]. }
      assert (L : len (digits_fuel fuel base (n / base)
                       ++ [digit_char (n mod base)])
                  = len (digits_fuel fuel base (n / base)) + 1).
      { unfold len. rewrite length_app. cbn [length]. lia. }
      rewrite L. destruct (Z.eq_dec k 1) as [->|Hk1].
      * rewrite Z.pow_1_r. split; intros; lia.
      * specialize (IH (n / base) Hrec (k - 1) ltac:(lia)).
        replace k with (Z.succ (k - 1)) at 1 by lia.
        rewrite Z.pow_succ_r by lia. split.
        -- intros H. apply Z.div_lt_upper_bound in H; [|lia].
           apply IH in H. lia.
        -- intros H. assert (H' : n / base < base ^ (k - 1))
             by (apply IH; lia).
           destruct (Z.lt_ge_cases n (base * base ^ (k - 1))) as [G|G];
             [exact G|].
           apply Z.div_le_lower_bound in G; lia.
Qed.

Lemma digits_length (base n k : Z) :
  2 <= base -> 0 <= n -> 1 <= k ->
  (n < base ^ k <-> len (digits base n) <= k).
Proof.
  intros Hb Hn Hk. unfold digits.
  apply digits_fuel_length; auto using log2_fuel.
Qed.

Lemma bits_value_bound (l : list pyval) : bits_value l < 2 ^ len l.
Proof.
  induction l as [|v l IH]; [reflexivity|].
  cbn [bits_value]. unfold len in *. cbn [length].
  rewrite Nat2Z.inj_succ, Z.pow_succ_r by lia.
  destruct (ne_zero v); cbn [Z.b2z]; lia.
Qed.

Lemma relay_text_nonneg (n v : Z) :
  0 <= v ->
  zfill (n / 4) (slice_from 2 (hex v))
  = zeros (n / 4 - len (digits 16 v)) ++ digits 16 v.
Proof.
  intros Hv. rewrite hex_nonneg by exact Hv.
  apply (zfill_run 16); [lia|apply digits_nonempty|apply digits_run; lia].
Qed.

Lemma padded_length (k : Z) (d : pystr) :
  len (zeros (k - len d) ++ d) = Z.max k (len d).
Proof.
  unfold len. rewrite length_app, zeros_length. lia.
Qed.

(** X14: on a board with 4 relays or more the text [set_relay] writes
    for an integer that is not negative has exactly
    [number_of_relays / 4] characters when the integer is below
    [16 ^ (number_of_relays / 4)], and more when it is not; and the text
    for a list of at most [4 * (number_of_relays / 4)] entries has
    exactly that many. *)
Theorem relay_text_width (n : Z) :
  1 <= n / 4 ->
  (forall v, 0 <= v ->
     exists h,
       relay_text n (PyInt v) = Some h
       /\ (v < 16 ^ (n / 4) -> len h = n / 4)
       /\ (16 ^ (n / 4) <= v -> n / 4 < len h))
  /\ (forall l, len l <= 4 * (n / 4) ->
        exists h, relay_text n (PyList l) = Some h /\ len h = n / 4).
Proof.
  intros Hn. split.
  - intros v Hv. exists (zfill (n / 4) (slice_from 2 (hex v))).
    split; [reflexivity|].
    rewrite (relay_text_nonneg n v Hv), padded_length.
    pose proof (digits_length 16 v (n / 4) ltac:(lia) Hv Hn) as D.
    split; intros H.
    + apply D in H. lia.
    + assert (~ len (digits 16 v) <= n / 4) by (intros G; apply D in G; lia).
      lia.
  - intros l Hl. exists (zfill (n / 4) (slice_from 2 (hex (bits_value l)))).
    split; [apply relay_text_list|].
    rewrite (relay_text_nonneg n _ (bits_value_nonneg l)), padded_length.
    pose proof (digits_length 16 (bits_value l) (n / 4) ltac:(lia)
                  (bits_value_nonneg l) Hn) as D.
    assert (B : bits_value l < 16 ^ (n / 4)).
    { change 16 with (2 ^ 4). rewrite <- Z.pow_mul_r by lia.
      apply (Z.lt_le_trans _ (2 ^ len l)); [apply bits_value_bound|].
      apply Z.pow_le_mono_r; lia. }
    apply D in B. lia.
Qed.

(** The theorem at [0xff] on a board of 8 relays. *)
Lemma relay_text_width_witness :
  exists h,
    relay_text 8 (PyInt 255) = Some h
    /\ (255 < 16 ^ (8 / 4) -> len h = 8 / 4)
    /\ (16 ^ (8 / 4) <= 255 -> 8 / 4 < len h).
Proof.
  refine (proj1 (relay_text_width 8 _) 255 _).
  - change (8 / 4) with 2. lia.
  - lia.
Defined.

(** ** Closing the port *)

(** X15: [close_port] on a board whose open failed raises
    [AttributeError], the board being as it was; on a board whose open
    succeeded it returns, the port is closed with its log as it was, and
    closing it once more returns as well and changes nothing. *)
Theorem close_port_after_init (port_name : pystr) (n : Z)
    (opened : option Serial) :
  let b := init port_name n opened in
  match opened with
  | None => close_port b = (Raise AttributeError, b)
  | Some p =>
      fst (close_port b) = Return tt
      /\ unusable (snd (close_port b)) = Some PortNotOpenError
      /\ port_log (snd (close_port b)) = log p
      /\ close_port (snd (close_port b)) = (Return tt, snd (close_port b))
  end.
Proof. destruct opened as [p|]; cbn; repeat split. Qed.

(** ** A reply that carries a number *)

Lemma str_of_int_chars (v c : Z) :
  In c (str_of_int v) -> c = 45 \/ ascii_digit c = true.
Proof.
  unfold str_of_int, sign_prefix. intros H. apply in_app_or in H as [H|H].
  - destruct (v <? 0); [|destruct H].
    destruct H as [<-|[]]. left. reflexivity.
  - right. revert c H. apply Forall_forall.
    apply digits_Forall; [lia|lia|].
    intros d Hd. apply digit_char_decimal. exact Hd.
Qed.

Lemma str_of_int_one_line (v : Z) :
  ~ In CR (str_of_int v) /\ ~ In LF (str_of_int v).
Proof.
  split; intros H; apply str_of_int_chars in H as [H|H]; discriminate H.
Qed.

Lemma in_padded (c x : Z) (j k : nat) (s : pystr) :
  x <> c -> ~ In x s -> ~ In x (repeat c j ++ s ++ repeat c k).
Proof.
  intros Hx Hs I. apply in_app_or in I as [I|I].
  - apply repeat_spec in I. congruence.
  - apply in_app_or in I as [I|I]; [exact (Hs I)|].
    apply repeat_spec in I. congruence.
Qed.

(** The third item of a text. *)
Lemma split_third (sep : Z) (first second item tail : pystr) :
  ~ In sep first -> ~ In sep second -> ~ In sep item ->
  tail = [] \/ (exists t, tail = sep :: t) ->
  nth_error (split sep (first ++ sep :: second ++ sep :: item ++ tail)) 2
  = Some item.
Proof.
  intros H1 H2 Hi Ht. rewrite (split_before_sep sep first _ H1).
  cbn [nth_error]. apply split_second; assumption.
Qed.

(** X16: [get_adc] returns the integer whose decimal text stands
    between the first carriage return of the reply and the second, or the
    end of the reply, with any line feeds around it: as it is when [raw]
    is true, and as its voltage when not. *)
Theorem get_adc_decimal_reply (db : unicode_db) (n : Z) (name : pystr)
    (rxs : list pybytes) (lg : list io_event) (port raw : pyval) (p v : Z)
    (echo tail : pystr) (j k : nat) :
  int_of db port = Return p -> 0 <= p < 5 ->
  utf8_decode (firstn 50 (hd [] rxs))
  = Some (echo ++ CR :: (repeat LF j ++ str_of_int v ++ repeat LF k)
          ++ tail) ->
  ~ In CR echo ->
  tail = [] \/ (exists t, tail = CR :: t) ->
  get_adc db port raw (open_board n name rxs lg)
  = (Return (if truthy raw then AdcRaw v else AdcVolts v),
     open_board n name (tl rxs)
       (lg ++ [EvWrite (lit "adc read " ++ str_of_int p ++ [CR]);
               EvRead 50])).
Proof.
  intros Hi Hp Hd He Ht. unfold get_adc.
  destruct (str_of_int_one_line v) as [Hcr Hlf].
  rewrite (port_checked db port p 5 _ _ _ Hi Hp).
  rewrite (exchange_any _ 50 _ n name rxs lg _ (adc_command_ascii p) Hd).
  unfold bind, index.
  rewrite split_second;
    [|exact He|apply in_padded; [discriminate|exact Hcr]|exact Ht].
  cbn [or_raise ret]. rewrite (strip_runs LF j k _ Hlf).
  rewrite int_of_str_str_of_int. cbn [or_raise ret].
  destruct (truthy raw); reflexivity.
Qed.

(** The theorem at a reply that echoes the command and carries [1023]. *)
Lemma get_adc_decimal_reply_witness :
  get_adc ascii_db (PyInt 2) (PyBool true)
    (open_board 16 (lit "COM6")
       [lit "adc read 2" ++ [LF; CR] ++ lit "1023" ++ [LF; CR] ++ lit ">"] [])
  = (Return (AdcRaw 1023),
     open_board 16 (lit "COM6") []
       ([] ++ [EvWrite (lit "adc read " ++ str_of_int 2 ++ [CR]);
               EvRead 50])).
Proof.
  apply (get_adc_decimal_reply ascii_db 16 (lit "COM6")
           [lit "adc read 2" ++ [LF; CR] ++ lit "1023" ++ [LF; CR] ++ lit ">"]
           [] (PyInt 2) (PyBool true) 2 1023
           (lit "adc read 2" ++ [LF]) (CR :: lit ">") 0 1).
  - reflexivity.
  - lia.
  - reflexivity.
  - cbn. intros H. repeat (destruct H as [H|H]; [discriminate H|]). exact H.
  - right. exists (lit ">"). reflexivity.
Defined.

(** X17: [read_gpio] reads the third line of the reply: when the
    decimal text of an integer stands there, with any carriage returns
    around it, the result is false for 0 and true for any other
    integer. *)
Theorem read_gpio_decimal_reply (db : unicode_db) (n : Z) (name : pystr)
    (rxs : list pybytes) (lg : list io_event) (port : pyval) (p v : Z)
    (first second tail : pystr) (j k : nat) :
  int_of db port = Return p -> 0 <= p < 10 ->
  utf8_decode (firstn 100 (hd [] rxs))
  = Some (first ++ LF :: second
          ++ LF :: (repeat CR j ++ str_of_int v ++ repeat CR k) ++ tail) ->
  ~ In LF first -> ~ In LF second ->
  tail = [] \/ (exists t, tail = LF :: t) ->
  read_gpio db port (open_board n name rxs lg)
  = (Return (negb (v =? 0)),
     open_board n name (tl rxs)
       (lg ++ [EvWrite (lit "gpio read " ++ str_of_int p ++ [LF; CR]);
               EvRead 100])).
Proof.
  intros Hi Hp Hd H1 H2 Ht. unfold read_gpio.
  destruct (str_of_int_one_line v) as [Hcr Hlf].
  rewrite (port_checked db port p 10 _ _ _ Hi Hp).
  rewrite (exchange_any _ 100 _ n name rxs lg _
             (gpio_read_command_ascii p) Hd).
  unfold bind, index.
  rewrite split_third;
    [|exact H1|exact H2|apply in_padded; [discriminate|exact Hlf]|exact Ht].
  cbn [or_raise ret]. rewrite (strip_runs CR j k _ Hcr).
  rewrite int_of_str_str_of_int. reflexivity.
Qed.

(** The theorem at a reply whose third line carries [1]. *)
Lemma read_gpio_decimal_reply_witness :
  read_gpio ascii_db (PyInt 4)
    (open_board 16 (lit "COM6")
       [lit "gpio read 4" ++ [LF; LF; CR] ++ lit "1" ++ [LF; CR] ++ lit ">"]
       [])
  = (Return (negb (1 =? 0)),
     open_board 16 (lit "COM6") []
       ([] ++ [EvWrite (lit "gpio read " ++ str_of_int 4 ++ [LF; CR]);
               EvRead 100])).
Proof.
  apply (read_gpio_decimal_reply ascii_db 16 (lit "COM6")
           [lit "gpio read 4" ++ [LF; LF; CR] ++ lit "1" ++ [LF; CR]
            ++ lit ">"]
           [] (PyInt 4) 4 1 (lit "gpio read 4") [] (LF :: CR :: lit ">") 1 0).
  - reflexivity.
  - lia.
  - reflexivity.
  - cbn. intros H. repeat (destruct H as [H|H]; [discriminate H|]). exact H.
  - intros H. exact H.
  - right. exists (CR :: lit ">"). reflexivity.
Defined.

(** ** A reply that is no text *)

Lemma exchange_undecodable {A} (cmd : pystr) (size : Z) (k : pystr -> M A)
    (n : Z) (name : pystr) (rxs : list pybytes) (lg : list io_event) :
  forallb is_ascii cmd = true ->
  utf8_decode (firstn (Z.to_nat size) (hd [] rxs)) = None ->
  (device_write cmd ;;;
   response <- device_read size ;;
   response <- decode response ;;
   k response) (open_board n name rxs lg)
  = (Raise UnicodeDecodeError,
     open_board n name (tl rxs) (lg ++ [EvWrite cmd; EvRead size])).
Proof.
  intros Hc Hd. unfold bind at 1 2 3.
  rewrite (device_write_open _ _ _ _ _ Hc), device_read_open.
  unfold decode. rewrite Hd. cbn [or_raise raise].
  rewrite <- app_assoc. reflexivity.
Qed.

(** X18: a reply whose bytes, cut at the size of the read, are no
    UTF-8 makes each method that reads a value raise
    [UnicodeDecodeError], after the command was written and the read
    made: [get_device_name], [get_relay] and [read_gpio] with a read of
    100 bytes, [get_adc] with a read of 50. *)
Theorem undecodable_reply (db : unicode_db) (n : Z) (name : pystr)
    (rxs : list pybytes) (lg : list io_event) :
  (utf8_decode (firstn 100 (hd [] rxs)) = None ->
   get_device_name (open_board n name rxs lg)
   = (Raise UnicodeDecodeError,
      open_board n name (tl rxs)
        (lg ++ [EvWrite (lit "id get" ++ [CR]); EvRead 100]))
   /\ get_relay db (open_board n name rxs lg)
      = (Raise UnicodeDecodeError,
         open_board n name (tl rxs)
           (lg ++ [EvWrite (lit "relay readall" ++ [CR]); EvRead 100]))
   /\ (forall port p, int_of db port = Return p -> 0 <= p < 10 ->
         read_gpio db port (open_board n name rxs lg)
         = (Raise UnicodeDecodeError,
            open_board n name (tl rxs)
              (lg ++ [EvWrite (lit "gpio read " ++ str_of_int p ++ [LF; CR]);
                      EvRead 100]))))
  /\ (utf8_decode (firstn 50 (hd [] rxs)) = None ->
      forall port raw p, int_of db port = Return p -> 0 <= p < 5 ->
        get_adc db port raw (open_board n name rxs lg)
        = (Raise UnicodeDecodeError,
           open_board n name (tl rxs)
             (lg ++ [EvWrite (lit "adc read " ++ str_of_int p ++ [CR]);
                     EvRead 50]))).
Proof.
  split.
  - intros Hd. split; [|split].
    + unfold get_device_name.
      apply (exchange_undecodable _ 100); [reflexivity|exact Hd].
    + unfold get_relay.
      apply (exchange_undecodable _ 100); [reflexivity|exact Hd].
    + intros port p Hi Hp. unfold read_gpio.
      rewrite (port_checked db port p 10 _ _ _ Hi Hp).
      apply (exchange_undecodable _ 100);
        [apply gpio_read_command_ascii|exact Hd].
  - intros Hd port raw p Hi Hp. unfold get_adc.
    rewrite (port_checked db port p 5 _ _ _ Hi Hp).
    apply (exchange_undecodable _ 50); [apply adc_command_ascii|exact Hd].
Qed.

(** The theorem at a reply of one byte that is no UTF-8. *)
Lemma undecodable_reply_witness :
  get_device_name (open_board 16 (lit "COM6") [[255]] [])
  = (Raise UnicodeDecodeError,
     open_board 16 (lit "COM6") []
       ([] ++ [EvWrite (lit "id get" ++ [CR]); EvRead 100])).
Proof.
  refine (proj1 (proj1 (undecodable_reply ascii_db 16 (lit "COM6") [[255]] [])
                   _)).
  reflexivity.
Defined.

(** ** The commands on the wire, method by method *)

(** X19: on an open port each method writes its command and then reads
    once: [id get]; [id set] and the ASCII letters and digits of the
    name other than [z], the first 8 of them or all of them after the
    zeros that fill 8 places; [gpio read n] with a line feed before the
    carriage return; [gpio set n] and [gpio clear n] with a space before
    it; [adc read n]; [relay readall]; and [relay writeall] with the
    lower-case hexadecimal digits of the value, no [0x] before them,
    after the zeros that fill [number_of_relays / 4] places. *)
Theorem commands_written (db : unicode_db) (n : Z) (name : pystr)
    (rxs : list pybytes) (lg : list io_event) :
  let b := open_board n name rxs lg in
  port_log (snd (get_device_name b))
  = lg ++ [EvWrite (lit "id get" ++ [CR]); EvRead 100]
  /\ (forall nm : pystr,
       let kept := filter name_char nm in
       port_log (snd (set_device_name db nm b))
       = lg ++ [EvWrite (lit "id set "
                         ++ (if 8 <=? len kept then firstn 8 kept
                             else zeros (8 - len kept) ++ kept)
                         ++ [CR]);
                EvRead 100])
  /\ (forall port p, int_of db port = Return p -> 0 <= p < 10 ->
       port_log (snd (read_gpio db port b))
       = lg ++ [EvWrite (lit "gpio read " ++ [48 + p] ++ [LF; CR]);
                EvRead 100])
  /\ (forall port status p, int_of db port = Return p -> 0 <= p < 10 ->
       port_log (snd (set_gpio db port status b))
       = lg ++ [EvWrite (lit (if truthy status then "gpio set "
                              else "gpio clear ")
                         ++ [48 + p] ++ lit " " ++ [CR]);
                EvRead 50])
  /\ (forall port raw p, int_of db port = Return p -> 0 <= p < 5 ->
       port_log (snd (get_adc db port raw b))
       = lg ++ [EvWrite (lit "adc read " ++ [48 + p] ++ [CR]); EvRead 50])
  /\ port_log (snd (get_relay db b))
     = lg ++ [EvWrite (lit "relay readall" ++ [CR]); EvRead 100]
  /\ (forall relay_vals v,
       relay_vals = PyInt v /\ 0 <= v
       \/ (exists l, relay_vals = PyList l /\ v = bits_value l) ->
       let h := zeros (n / 4 - len (digits 16 v)) ++ digits 16 v in
       port_log (snd (set_relay relay_vals b))
       = lg ++ [EvWrite (lit "relay writeall " ++ h ++ [CR]); EvRead 100]
       /\ forallb lower_hex h = true
       /\ n / 4 <= len h
       /\ int_of_str db 16 h = Some v).
Proof.
  intros b. subst b. repeat split.
  - unfold get_device_name.
    apply exchange_log; [reflexivity|pure_tail].
  - intros nm kept. subst kept.
    transitivity
      (lg ++ [EvWrite (lit "id set " ++ normalize_name db nm ++ [CR]);
              EvRead 100]).
    + unfold set_device_name.
      apply (exchange_log _ 100 (fun _ => ret tt)); [|pure_tail].
      apply forallb_app_true; [reflexivity|].
      apply forallb_app_true; [apply normalize_name_ascii|reflexivity].
    + rewrite normalize_name_padded.
      rewrite (padded_name _ (filter_kept name_char nm)). reflexivity.
  - intros port p Hi Hp. unfold read_gpio.
    rewrite (port_checked db port p 10 _ _ _ Hi Hp).
    rewrite (str_of_int_digit p Hp).
    apply exchange_log; [|pure_tail].
    apply forallb_app_true; [reflexivity|].
    cbn [app forallb]. unfold_chars. bool_lia.
  - intros port status p Hi Hp. unfold set_gpio.
    rewrite (port_checked db port p 10 _ _ _ Hi Hp).
    rewrite (str_of_int_digit p Hp).
    destruct (truthy status);
      (apply (exchange_log _ 50 (fun _ => ret tt)); [|pure_tail];
       apply forallb_app_true; [reflexivity|];
       cbn [app forallb lit map list_ascii_of_string]; unfold_chars; bool_lia).
  - intros port raw p Hi Hp. unfold get_adc.
    assert (Hp' : 0 <= p < 10) by lia.
    rewrite (port_checked db port p 5 _ _ _ Hi Hp).
    rewrite (str_of_int_digit p Hp').
    apply exchange_log; [|pure_tail].
    apply forallb_app_true; [reflexivity|].
    cbn [app forallb]. unfold_chars. bool_lia.
  - unfold get_relay.
    apply exchange_log; [reflexivity|pure_tail].
  - assert (Hv : 0 <= v).
    { destruct H as [[_ Hv]|(l & _ & ->)]; [exact Hv|apply bits_value_nonneg]. }
    assert (T : relay_text n relay_vals
                = Some (zfill (n / 4) (slice_from 2 (hex v)))).
    { destruct H as [[-> _]|(l & -> & ->)];
        [reflexivity|apply relay_text_list]. }
    destruct (relay_hex_text db n v Hv) as (Eh & _).
    rewrite <- Eh. apply set_relay_log. exact T.
  - assert (Hv : 0 <= v).
    { destruct H as [[_ Hv]|(l & _ & ->)]; [exact Hv|apply bits_value_nonneg]. }
    destruct (relay_hex_text db n v Hv) as (Eh & Hl & _).
    rewrite <- Eh. exact Hl.
  - unfold len. rewrite length_app, Nat2Z.inj_add.
    unfold zeros. rewrite repeat_length. 
    fold (len (digits 16 v)). lia.
  - assert (Hv : 0 <= v).
    { destruct H as [[_ Hv]|(l & _ & ->)]; [exact Hv|apply bits_value_nonneg]. }
    destruct (relay_hex_text db n v Hv) as (Eh & _ & Hr).
    rewrite <- Eh. exact Hr.
Qed.

(** The theorem at [read_gpio(3)] on a connected 16-relay board. *)
Lemma commands_written_witness :
  int_of ascii_db (PyInt 3) = Return 3 /\ 0 <= 3 < 10
  /\ port_log (snd (read_gpio ascii_db (PyInt 3)
                      (open_board 16 (lit "COM6") [] [])))
     = [] ++ [EvWrite (lit "gpio read " ++ [48 + 3] ++ [LF; CR]); EvRead 100].
Proof.
  split; [reflexivity|]. split; [lia|].
  apply (commands_written ascii_db 16 (lit "COM6") [] []); [reflexivity|lia].
Defined.
